(** * FinAgent front end: the three analysis pages

    A shallow embedding of the submit handlers of the stock-analysis,
    portfolio and sentiment pages ([src/app/stock-analysis/page.tsx],
    [src/app/portfolio/page.tsx]) and of the stock page's result panels.

    The handlers are [async] functions that read the component state, call
    [fetch], and write the component state through React setters.  They are
    modelled in a small state-and-exception monad over the component state
    and a chronological trace of the effects the handler performs.  Whatever
    the browser and the JavaScript engine decide (what the network answers,
    how a number is printed, the wording of a [TypeError]) is a field of the
    [Host] record, and every theorem holds for every host. *)

From Stdlib Require Import String Ascii List Bool ZArith Lia.
From Stdlib Require Import PrimFloat.
Import ListNotations.
Open Scope string_scope.
Set Warnings "-register-all".

(** ** JavaScript strings

    A string is a sequence of characters.  The characters with a code
    below 128 are the ASCII characters, and every literal of the pages
    is made of them; a character with a higher code stands for (a part
    of) a character above U+007F.  [includes], the emptiness test and
    the symbol pattern read a string the same way on every such
    character.  [trim] and [toUpperCase] do not: on a string of ASCII
    characters they are the functions below, and on any other string
    they are left to the engine (see [Host], [trim] and
    [toUpperCase]). *)

Module JsString.

Definition code (c : ascii) : nat := nat_of_ascii c.

(** Every character of the string is below U+0080. *)
Fixpoint isAscii (s : string) : bool :=
  match s with
  | EmptyString => true
  | String c r => (code c <? 128)%nat && isAscii r
  end.

(** The WhiteSpace and LineTerminator characters below U+0080: TAB, LF,
    VT, FF, CR and SP. *)
Definition isWhiteSpaceAscii (c : ascii) : bool :=
  let n := code c in
  (((9 <=? n) && (n <=? 13)) || (n =? 32))%nat.

Definition isUpper (c : ascii) : bool :=
  let n := code c in ((65 <=? n) && (n <=? 90))%nat.

Definition isLower (c : ascii) : bool :=
  let n := code c in ((97 <=? n) && (n <=? 122))%nat.

Definition upperCharAscii (c : ascii) : ascii :=
  if isLower c then ascii_of_nat (code c - 32) else c.

(** [String.prototype.toUpperCase] on a string of ASCII characters. *)
Fixpoint toUpperCaseAscii (s : string) : string :=
  match s with
  | EmptyString => EmptyString
  | String c r => String (upperCharAscii c) (toUpperCaseAscii r)
  end.

Fixpoint trimStartAscii (s : string) : string :=
  match s with
  | EmptyString => EmptyString
  | String c r => if isWhiteSpaceAscii c then trimStartAscii r else s
  end.

Fixpoint trimEndAscii (s : string) : string :=
  match s with
  | EmptyString => EmptyString
  | String c r =>
      match trimEndAscii r with
      | EmptyString =>
          if isWhiteSpaceAscii c then EmptyString else String c EmptyString
      | r' => String c r'
      end
  end.

(** [String.prototype.trim] on a string of ASCII characters. *)
Definition trimAscii (s : string) : string := trimEndAscii (trimStartAscii s).

(** [String.prototype.includes]: [sub] occurs in [s] as a substring. *)
Fixpoint includes (s sub : string) : bool :=
  String.prefix sub s
  || match s with
     | EmptyString => false
     | String _ r => includes r sub
     end.

(** A string is falsy exactly when it is empty ([!symbol]). *)
Definition falsy (s : string) : bool :=
  match s with EmptyString => true | _ => false end.

Fixpoint all (p : ascii -> bool) (s : string) : bool :=
  match s with
  | EmptyString => true
  | String c r => p c && all p r
  end.

(** The double-quote character U+0022 as a one-character string. *)
Definition dquote : string := String (ascii_of_nat 34) EmptyString.

End JsString.

(** ** JSON values, thrown values, completions *)

(** What [response.json()] resolves to, and what [JSON.stringify] is
  given.  An object keeps its members in source order. *)
Inductive JSON : Type :=
| JNull
| JBool (b : bool)
| JNumber (x : float)
| JString (s : string)
| JArray (items : list JSON)
| JObject (members : list (string * JSON)).

(** A JavaScript value as the pages see it: [None] is [undefined]. *)
Definition Value : Type := option JSON.

(** A thrown value: an [Error] instance with its [message], or anything
  else ([err instanceof Error] is false). *)
Inductive Thrown : Type :=
| ErrorObject (message : string)
| NotAnError.

Inductive Completion (A : Type) : Type :=
| Normal (a : A)
| Throw (e : Thrown).
Arguments Normal {A} a.
Arguments Throw {A} e.

Definition andThen {A B} (c : Completion A) (k : A -> Completion B) : Completion B :=
  match c with
  | Normal a => k a
  | Throw e => Throw e
  end.

Notation "'let*' x ':=' c 'in' k" := (andThen c (fun x => k))
  (at level 10, x name, c at level 100, k at level 200).

Module Js.

Definition isNaN (x : float) : bool := negb (PrimFloat.eqb x x).

(** ToBoolean. *)
Definition truthy (v : Value) : bool :=
  match v with
  | None | Some JNull => false
  | Some (JBool b) => b
  | Some (JNumber x) => negb (PrimFloat.eqb x 0%float || isNaN x)
  | Some (JString s) => negb (JsString.falsy s)
  | Some (JArray _) | Some (JObject _) => true
  end.

(** Own property of a parsed object: with a repeated key the last
    member wins, as [JSON.parse] has it. *)
Fixpoint member (key : string) (ms : list (string * JSON)) : Value :=
  match ms with
  | [] => None
  | (k, v) :: rest =>
      match member key rest with
      | Some v' => Some v'
      | None => if String.eqb k key then Some v else None
      end
  end.

Definition isString (s : string) (v : JSON) : bool :=
  match v with JString s' => String.eqb s' s | _ => false end.

End Js.

(** ** Requests, responses and the host *)

Record Request : Type := {
  method : string;
  url : string;
  headers : list (string * string);
  (** the value handed to [JSON.stringify], when the request has a body *)
  body : option JSON
}.

Inductive JsonOutcome : Type :=
| JsonResolves (data : JSON)
| JsonRejects (e : Thrown).

Record Response : Type := {
  status : Z;
  json : JsonOutcome
}.

(** [response.ok]: the status is in the range 200-299. *)
Definition ok (r : Response) : bool :=
  (200 <=? status r)%Z && (status r <=? 299)%Z.

(** An awaited [fetch] settles: it resolves with a response (of any
  status) or rejects. *)
Inductive FetchOutcome : Type :=
| Resolves (r : Response)
| Rejects (e : Thrown).

Inductive HostErrorKind : Type :=
| ReadPropertyOfNullish (property : string)
| NotAFunction (callee : string)
| InvalidReactChild.

(** Everything the pages leave to the browser and the engine. *)
Record Host : Type := {
  (** what the network answers to a request *)
  network : Request -> FetchOutcome;
  (** ToString on a value that is not a string *)
  ToString : JSON -> Completion string;
  (** ToNumber on a value that is not a number *)
  ToNumber : Value -> Completion float;
  Number_toFixed : float -> Z -> string;
  Number_toLocaleString : float -> string;
  (** [toLocaleString()] on a value that is neither a number nor nullish *)
  toLocaleStringOther : JSON -> Completion string;
  parseInt : string -> float;
  parseFloat : string -> float;
  (** [trim] on a string that holds a character above U+007F *)
  String_trim : string -> string;
  (** [toUpperCase] on a string that holds a character above U+007F *)
  String_toUpperCase : string -> string;
  (** the [message] of the [Error] the engine or React raises *)
  hostErrorMessage : HostErrorKind -> string
}.

(** ** Effects *)

Inductive Event : Type :=
| EPreventDefault
| EFetch (r : Request)
| ESetLoading (b : bool)
| ESetError (s : string)
| ESetResult (v : JSON)
| EConsoleError (label : option string) (e : Thrown)
| EToastSuccess (s : string).

Definition requests (t : list Event) : list Request :=
  flat_map (fun e => match e with EFetch r => [r] | _ => [] end) t.

(** The component state of a page, together with the trace of what the
  handler has done so far. *)
Record World (S : Type) : Type := {
  ui : S;
  trace : list Event
}.
Arguments ui {S} w.
Arguments trace {S} w.
Arguments Build_World {S} ui trace.

Module M.
Section Monad.
Context {S : Type}.

Definition t (A : Type) : Type := World S -> Completion A * World S.

Definition ret {A} (a : A) : t A := fun w => (Normal a, w).

Definition bind {A B} (m : t A) (k : A -> t B) : t B :=
  fun w =>
    match m w with
    | (Normal a, w') => k a w'
    | (Throw e, w') => (Throw e, w')
    end.

Definition throw {A} (e : Thrown) : t A := fun w => (Throw e, w).

Definition lift {A} (c : Completion A) : t A := fun w => (c, w).

Definition emit (e : Event) : t unit :=
  fun w => (Normal tt, {| ui := ui w; trace := trace w ++ [e] |}).

Definition read {A} (f : S -> A) : t A := fun w => (Normal (f (ui w)), w).

Definition update (f : S -> S) : t unit :=
  fun w => (Normal tt, {| ui := f (ui w); trace := trace w |}).

(** [try { body } catch (err) { handler err } finally { fin }]. *)
Definition try_catch_finally {A}
    (body : t A) (handler : Thrown -> t A) (fin : t unit) : t A :=
  fun w =>
    let '(c1, w1) := body w in
    let '(c2, w2) :=
      match c1 with
      | Normal a => (Normal a, w1)
      | Throw e => handler e w1
      end in
    match fin w2 with
    | (Normal _, w3) => (c2, w3)
    | (Throw e, w3) => (Throw e, w3)
    end.

(** [promise.catch(() => null)]: [None] is the [null] of the callback. *)
Definition catch_null {A} (m : t A) : t (option A) :=
  fun w =>
    match m w with
    | (Normal a, w') => (Normal (Some a), w')
    | (Throw _, w') => (Normal None, w')
    end.

End Monad.
Arguments t S A : clear implicits.
End M.

Declare Scope js_scope.
Delimit Scope js_scope with js.
Notation "x <- m ;; k" := (M.bind m (fun x => k))
  (at level 100, m at next level, right associativity) : js_scope.
Notation "m ;; k" := (M.bind m (fun _ => k))
  (at level 100, right associativity) : js_scope.
Open Scope js_scope.

Section HostOperations.
Context {S : Type}.
Variable h : Host.

(** [s.trim()]. *)
Definition trim (s : string) : string :=
  if JsString.isAscii s then JsString.trimAscii s else String_trim h s.

(** [s.toUpperCase()]. *)
Definition toUpperCase (s : string) : string :=
  if JsString.isAscii s then JsString.toUpperCaseAscii s else String_toUpperCase h s.

(** [await fetch(r)]. *)
Definition fetch (r : Request) : M.t S Response :=
  M.emit (EFetch r) ;;
  match network h r with
  | Resolves resp => M.ret resp
  | Rejects e => M.throw e
  end.

(** [await response.json()]. *)
Definition response_json (r : Response) : M.t S JSON :=
  match json r with
  | JsonResolves data => M.ret data
  | JsonRejects e => M.throw e
  end.

Definition hostError {A} (k : HostErrorKind) : Completion A :=
  Throw (ErrorObject (hostErrorMessage h k)).

(** [v.key] for the property names the pages read; none of them is an
    index or an inherited property of a string, number, boolean or
    array. *)
Definition get (v : Value) (key : string) : Completion Value :=
  match v with
  | None | Some JNull => hostError (ReadPropertyOfNullish key)
  | Some (JObject ms) => Normal (Js.member key ms)
  | Some _ => Normal None
  end.

(** [v?.includes(s)], reduced to the truth value the [if] tests.
    Strings and arrays have an [includes] method; a parsed object has
    at most a non-callable member of that name. *)
Definition optional_includes (callee : string) (v : Value) (s : string)
  : Completion bool :=
  match v with
  | None | Some JNull => Normal false
  | Some (JString d) => Normal (JsString.includes d s)
  | Some (JArray items) => Normal (existsb (Js.isString s) items)
  | Some _ => hostError (NotAFunction callee)
  end.

(** [new Error(v || fallback)]. *)
Definition new_Error (v : Value) (fallback : string) : Completion Thrown :=
  match v with
  | Some (JString s) =>
      Normal (ErrorObject (if JsString.falsy s then fallback else s))
  | Some d =>
      if Js.truthy v then
        match ToString h d with
        | Normal s => Normal (ErrorObject s)
        | Throw e => Throw e
        end
      else Normal (ErrorObject fallback)
  | None => Normal (ErrorObject fallback)
  end.

(** [v.toFixed(digits)]: only numbers have the method. *)
Definition toFixed (callee : string) (v : Value) (digits : Z) : Completion string :=
  match v with
  | Some (JNumber x) => Normal (Number_toFixed h x digits)
  | None | Some JNull => hostError (ReadPropertyOfNullish "toFixed")
  | Some _ => hostError (NotAFunction callee)
  end.

(** [v.toLocaleString()]. *)
Definition toLocaleString (v : Value) : Completion string :=
  match v with
  | Some (JNumber x) => Normal (Number_toLocaleString h x)
  | None | Some JNull => hostError (ReadPropertyOfNullish "toLocaleString")
  | Some d => toLocaleStringOther h d
  end.

(** The numeric value an arithmetic or relational operator sees. *)
Definition toNumber (v : Value) : Completion float :=
  match v with
  | Some (JNumber x) => Normal x
  | _ => ToNumber h v
  end.

(** [v >= 0]. *)
Definition geZero (v : Value) : Completion bool :=
  let* x := toNumber v in Normal (PrimFloat.leb 0%float x).

(** [{v}] as a React child: strings and numbers are text, [null],
    [undefined] and booleans render nothing, an array renders its
    items, and React raises an error for a plain object. *)
Fixpoint childJSON (v : JSON) : Completion (list string) :=
  match v with
  | JNull | JBool _ => Normal []
  | JString s => Normal [s]
  | JNumber _ => let* s := ToString h v in Normal [s]
  | JArray items =>
    (fix each (l : list JSON) : Completion (list string) :=
       match l with
       | [] => Normal []
       | x :: r =>
           let* a := childJSON x in
           let* b := each r in
           Normal (a ++ b)%list
       end) items
  | JObject _ => hostError InvalidReactChild
  end.

Definition child (v : Value) : Completion (list string) :=
  match v with
  | None => Normal []
  | Some d => childJSON d
  end.

(** [err instanceof Error ? err.message : fallback]. *)
Definition message_or (err : Thrown) (fallback : string) : string :=
  match err with
  | ErrorObject m => m
  | NotAnError => fallback
  end.

End HostOperations.

(** ** What the three pages share *)

Definition backend : string := "http://localhost:8001".

(** [fetch('http://localhost:8001/health')]: no init object, so a GET
    with no header and no body. *)
Definition healthRequest : Request :=
  {| method := "GET"; url := backend ++ "/health"; headers := []; body := None |}.

Definition backendNotRunning : string :=
  "Backend server is not running. Please start the server and try again.".

Definition unableToConnect : string :=
  "Unable to connect to the backend server. Please ensure it is running on port 8001.".

Definition failedToFetch : string := "Failed to fetch".

(** ** The stock-analysis page ([src/app/stock-analysis/page.tsx]) *)

Module StockAnalysisPage.

(** The five [useState] cells; [analysis] is [JNull] for [null]. *)
Record State : Type := {
  symbol : string;
  period : string;
  loading : bool;
  analysis : JSON;
  error : string
}.

Definition setLoading (b : bool) : M.t State unit :=
  M.emit (ESetLoading b) ;;
  M.update (fun s => {| symbol := symbol s; period := period s; loading := b;
                        analysis := analysis s; error := error s |}).

Definition setAnalysis (v : JSON) : M.t State unit :=
  M.emit (ESetResult v) ;;
  M.update (fun s => {| symbol := symbol s; period := period s; loading := loading s;
                        analysis := v; error := error s |}).

Definition setError (m : string) : M.t State unit :=
  M.emit (ESetError m) ;;
  M.update (fun s => {| symbol := symbol s; period := period s; loading := loading s;
                        analysis := analysis s; error := m |}).

(** [/^[A-Z]{1,5}$/.test(s)]. *)
Definition symbolPattern (s : string) : bool :=
  ((1 <=? String.length s) && (String.length s <=? 5))%nat
  && JsString.all JsString.isUpper s.

Definition noDataFound : string := "No data found for symbol".

(** The template literal of line 81. *)
Definition noDataMessage (cleanSymbol : string) : string :=
  "No data found for symbol " ++ JsString.dquote ++ cleanSymbol ++ JsString.dquote
  ++ ". Please verify the stock symbol is correct.".

Definition analyzeRequest (cleanSymbol period : string) : Request :=
  {| method := "POST";
     url := backend ++ "/analyze/stock";
     headers := [("Content-Type", "application/json"); ("Accept", "application/json")];
     body := Some (JObject [("symbol", JString cleanSymbol); ("period", JString period)]) |}.

(** The [try] block, lines 58-87. *)
Definition requestAnalysis (h : Host) (cleanSymbol period : string) : M.t State unit :=
  healthCheck <- M.catch_null (fetch h healthRequest) ;;
  match healthCheck with
  | None => M.throw (ErrorObject backendNotRunning)
  | Some _ =>
      response <- fetch h (analyzeRequest cleanSymbol period) ;;
      data <- response_json response ;;
      if negb (ok response) then
        detail <- M.lift (get h (Some data) "detail") ;;
        found <- M.lift (optional_includes h "data.detail.includes" detail noDataFound) ;;
        if found then M.throw (ErrorObject (noDataMessage cleanSymbol))
        else
          detail' <- M.lift (get h (Some data) "detail") ;;
          err <- M.lift (new_Error h detail' "Failed to analyze stock") ;;
          M.throw err
      else
        setAnalysis data ;;
        M.emit (EToastSuccess "Analysis completed successfully")
  end.

(** The [catch] block, lines 88-98. *)
Definition reportError (err : Thrown) : M.t State unit :=
  M.emit (EConsoleError (Some "Stock analysis error:") err) ;;
  let errorMessage := message_or err "Failed to analyze stock. Please try again." in
  setError errorMessage ;;
  if JsString.includes errorMessage failedToFetch
  then setError unableToConnect
  else M.ret tt.

Definition handleAnalyze (h : Host) : M.t State unit :=
  M.emit EPreventDefault ;;
  symbol <- M.read symbol ;;
  period <- M.read period ;;
  if JsString.falsy symbol then
    setError "Please enter a stock symbol"
  else
    let cleanSymbol := toUpperCase h (trim h symbol) in
    if negb (symbolPattern cleanSymbol) then
      setError "Please enter a valid stock symbol (1-5 letters)"
    else
      setLoading true ;;
      setError EmptyString ;;
      setAnalysis JNull ;;
      M.try_catch_finally
        (requestAnalysis h cleanSymbol period)
        reportError
        (setLoading false).

(** *** The result panels, lines 227-302 *)

(** The dynamic text of the three panels, in document order. *)
Record Panels : Type := {
  heading : list string;
  currentPrice : string;
  priceChangeClass : string;
  priceChange : list string;
  sector : list string;
  industry : list string;
  trendClass : string;
  trend : list string;
  rsi : string;
  macd : string;
  volatility : string;
  sma20 : string;
  sma50 : string;
  averageVolume : string;
  marketCap : string;
  aiAnalysis : list string
}.

Definition renderPanels (h : Host) (analysis : JSON) : Completion Panels :=
  let a := Some analysis in
  (* the expressions of the JSX tree, in source order *)
  let* company_name := get h a "company_name" in
  let* symbol := get h a "symbol" in
  let* current_price := get h a "current_price" in
  let* current_price := toFixed h "analysis.current_price.toFixed" current_price 2 in
  let* price_change := get h a "price_change" in
  let* up := geZero h price_change in
  let* up' := geZero h price_change in
  let* change := toFixed h "analysis.price_change.toFixed" price_change 2 in
  let* sector := get h a "sector" in
  let* industry := get h a "industry" in
  let* ti := get h a "technical_indicators" in
  let* trend := get h ti "trend" in
  let bullish := match trend with Some d => Js.isString "Bullish" d | None => false end in
  let* rsi := get h ti "rsi" in
  let* rsi := toFixed h "analysis.technical_indicators.rsi.toFixed" rsi 2 in
  let* macd := get h ti "macd" in
  let* macd := toFixed h "analysis.technical_indicators.macd.toFixed" macd 2 in
  let* volatility := get h ti "volatility" in
  let* volatility := toNumber h volatility in
  let volatility := Number_toFixed h (PrimFloat.mul volatility 100%float) 2 in
  let* sma20 := get h ti "sma20" in
  let* sma20 := toFixed h "analysis.technical_indicators.sma20.toFixed" sma20 2 in
  let* sma50 := get h ti "sma50" in
  let* sma50 := toFixed h "analysis.technical_indicators.sma50.toFixed" sma50 2 in
  let* average_volume := get h ti "average_volume" in
  let* average_volume := toLocaleString h average_volume in
  let* market_cap := get h a "market_cap" in
  let* market_cap := toNumber h market_cap in
  let market_cap := Number_toFixed h (PrimFloat.div market_cap 1e9%float) 2 in
  let* text := get h a "analysis" in
  (* React then renders the children *)
  let* company_name := child h company_name in
  let* symbol := child h symbol in
  let* sector := child h sector in
  let* industry := child h industry in
  let* trendText := child h trend in
  let* text := child h text in
  Normal {|
    heading := (company_name ++ [" ("] ++ symbol ++ [")"])%list;
    currentPrice := "$" ++ current_price;
    priceChangeClass :=
      "text-xl font-semibold " ++ (if up then "text-green-600" else "text-red-600");
    priceChange := [if up' then "+" else EmptyString; change; "%"];
    sector := sector;
    industry := industry;
    trendClass :=
      "text-lg font-semibold " ++ (if bullish then "text-green-600" else "text-red-600");
    trend := trendText;
    rsi := rsi;
    macd := macd;
    volatility := volatility ++ "%";
    sma20 := "$" ++ sma20;
    sma50 := "$" ++ sma50;
    averageVolume := average_volume;
    marketCap := "$" ++ market_cap ++ "B";
    aiAnalysis := text
  |}.

(** [{analysis && (...)}]: the panels are rendered only for a truthy
    [analysis]. *)
Definition render (h : Host) (analysis : JSON) : Completion (option Panels) :=
  if Js.truthy (Some analysis) then
    let* p := renderPanels h analysis in Normal (Some p)
  else Normal None.

(** *** The [StockAnalysis] interface, lines 6-29 *)

Definition isString (v : Value) : bool :=
  match v with Some (JString _) => true | _ => false end.

Definition isNumber (v : Value) : bool :=
  match v with Some (JNumber _) => true | _ => false end.

Definition isNumberOrNull (v : Value) : bool :=
  match v with Some (JNumber _) | Some JNull => true | _ => false end.

Definition isFiftyTwoWeek (v : Value) : bool :=
  match v with
  | Some (JObject ms) =>
      isNumber (Js.member "high" ms) && isNumber (Js.member "low" ms)
  | _ => false
  end.

Definition isTechnicalIndicators (v : Value) : bool :=
  match v with
  | Some (JObject ms) =>
      isString (Js.member "trend" ms)
      && isNumber (Js.member "rsi" ms)
      && isNumber (Js.member "macd" ms)
      && isNumber (Js.member "sma20" ms)
      && isNumber (Js.member "sma50" ms)
      && isNumber (Js.member "volatility" ms)
      && isNumber (Js.member "average_volume" ms)
  | _ => false
  end.

Definition isStockAnalysis (v : JSON) : bool :=
  match v with
  | JObject ms =>
      isString (Js.member "symbol" ms)
      && isString (Js.member "company_name" ms)
      && isString (Js.member "sector" ms)
      && isString (Js.member "industry" ms)
      && isNumber (Js.member "current_price" ms)
      && isNumber (Js.member "price_change" ms)
      && isNumber (Js.member "market_cap" ms)
      && isNumberOrNull (Js.member "pe_ratio" ms)
      && isFiftyTwoWeek (Js.member "fifty_two_week" ms)
      && isTechnicalIndicators (Js.member "technical_indicators" ms)
      && isString (Js.member "analysis" ms)
  | _ => false
  end.

(** *** The controls of the form, lines 104-201 *)

Definition setSymbol (v : string) : M.t State unit :=
  M.update (fun s => {| symbol := v; period := period s; loading := loading s;
                        analysis := analysis s; error := error s |}).

Definition setPeriod (v : string) : M.t State unit :=
  M.update (fun s => {| symbol := symbol s; period := v; loading := loading s;
                        analysis := analysis s; error := error s |}).

(** The handler of the "Try Again" button. *)
Definition handleRetry : M.t State unit :=
  setError EmptyString ;;
  setAnalysis JNull.

(** The quick picks: [symbol] and [name] of each. *)
Definition commonStocks : list (string * string) :=
  [("AAPL", "Apple"); ("MSFT", "Microsoft"); ("GOOGL", "Google");
   ("AMZN", "Amazon"); ("META", "Meta")].

(** [onClick={() => setSymbol(stock.symbol)}]. *)
Definition onStockClick (stock : string * string) : M.t State unit :=
  setSymbol (fst stock).

(** [onChange={(e) => setSymbol(e.target.value.toUpperCase())}]. *)
Definition onSymbolChange (h : Host) (value : string) : M.t State unit :=
  setSymbol (toUpperCase h value).

(** [onChange={(e) => setPeriod(e.target.value)}]. *)
Definition onPeriodChange (value : string) : M.t State unit :=
  setPeriod value.

(** What the symbol input declares, lines 134-136: [required],
    [maxLength={5}] and [pattern="[A-Za-z]+"], a pattern the browser
    matches against the whole value. *)
Definition symbolInputAccepts (value : string) : bool :=
  negb (JsString.falsy value)
  && (String.length value <=? 5)%nat
  && JsString.all (fun c => JsString.isUpper c || JsString.isLower c) value.

(** *** The error panel, lines 204-225 *)

Record ErrorPanel : Type := {
  text : string;
  (** the paragraph with the command that starts the backend *)
  startHint : bool
}.

(** [{error && (...)}], with [error.includes('backend server')] for the
    hint. *)
Definition renderError (error : string) : option ErrorPanel :=
  if JsString.falsy error then None
  else Some {| text := error; startHint := JsString.includes error "backend server" |}.

End StockAnalysisPage.

(** ** The portfolio page ([src/app/portfolio/page.tsx], first component) *)

Module PortfolioPage.

Record FormData : Type := {
  age : string;
  income : string;
  risk_appetite : string;
  investment_period : string
}.

Record State : Type := {
  formData : FormData;
  loading : bool;
  recommendation : JSON;
  error : string
}.

Definition setLoading (b : bool) : M.t State unit :=
  M.emit (ESetLoading b) ;;
  M.update (fun s => {| formData := formData s; loading := b;
                        recommendation := recommendation s; error := error s |}).

Definition setRecommendation (v : JSON) : M.t State unit :=
  M.emit (ESetResult v) ;;
  M.update (fun s => {| formData := formData s; loading := loading s;
                        recommendation := v; error := error s |}).

Definition setError (m : string) : M.t State unit :=
  M.emit (ESetError m) ;;
  M.update (fun s => {| formData := formData s; loading := loading s;
                        recommendation := recommendation s; error := m |}).

Definition recommendRequest (h : Host) (f : FormData) : Request :=
  {| method := "POST";
     url := backend ++ "/portfolio/recommend";
     headers := [("Content-Type", "application/json")];
     body := Some (JObject
       [("age", JNumber (parseInt h (age f)));
        ("income", JNumber (parseFloat h (income f)));
        ("risk_appetite", JString (risk_appetite f));
        ("investment_period", JNumber (parseInt h (investment_period f)))]) |}.

(** The [try] block, lines 32-52. *)
Definition requestRecommendation (h : Host) (f : FormData) : M.t State unit :=
  response <- fetch h (recommendRequest h f) ;;
  if negb (ok response) then
    errorData <- response_json response ;;
    detail <- M.lift (get h (Some errorData) "detail") ;;
    err <- M.lift (new_Error h detail "Failed to get portfolio recommendation") ;;
    M.throw err
  else
    data <- response_json response ;;
    setRecommendation data.

(** The [catch] block, lines 53-55. *)
Definition reportError (err : Thrown) : M.t State unit :=
  setError (message_or err "Failed to get portfolio recommendation. Please try again.") ;;
  M.emit (EConsoleError None err).

Definition handleSubmit (h : Host) : M.t State unit :=
  M.emit EPreventDefault ;;
  formData <- M.read formData ;;
  setLoading true ;;
  setError EmptyString ;;
  setRecommendation JNull ;;
  M.try_catch_finally
    (requestRecommendation h formData)
    reportError
    (setLoading false).

(** *** The inputs, lines 61-64 *)

(** The [name] attributes of the four controls that carry
    [handleInputChange]. *)
Inductive InputName : Type :=
| Age
| Income
| RiskAppetite
| InvestmentPeriod.

Definition key (n : InputName) : string :=
  match n with
  | Age => "age"
  | Income => "income"
  | RiskAppetite => "risk_appetite"
  | InvestmentPeriod => "investment_period"
  end.


(** [{ ...prev, [name]: value }]. *)
Definition assign (n : InputName) (value : string) (prev : FormData) : FormData :=
  match n with
  | Age =>
      {| age := value; income := income prev; risk_appetite := risk_appetite prev;
         investment_period := investment_period prev |}
  | Income =>
      {| age := age prev; income := value; risk_appetite := risk_appetite prev;
         investment_period := investment_period prev |}
  | RiskAppetite =>
      {| age := age prev; income := income prev; risk_appetite := value;
         investment_period := investment_period prev |}
  | InvestmentPeriod =>
      {| age := age prev; income := income prev; risk_appetite := risk_appetite prev;
         investment_period := value |}
  end.

(** [setFormData(update)] with a functional update. *)
Definition setFormData (update : FormData -> FormData) : M.t State unit :=
  M.update (fun s => {| formData := update (formData s); loading := loading s;
                        recommendation := recommendation s; error := error s |}).

Definition handleInputChange (name : InputName) (value : string) : M.t State unit :=
  setFormData (fun prev => assign name value prev).

(** *** The recommendation panel, lines 160-193 *)

Record Panel : Type := {
  profileAge : list string;
  profileIncome : string;
  profileRisk : list string;
  profilePeriod : list string;
  advice : list string
}.

Definition renderPanel (h : Host) (recommendation : JSON) : Completion Panel :=
  let r := Some recommendation in
  (* the expressions of the JSX tree, in source order *)
  let* profile := get h r "profile" in
  let* age := get h profile "age" in
  let* profile := get h r "profile" in
  let* income := get h profile "income" in
  let* income := toLocaleString h income in
  let* profile := get h r "profile" in
  let* risk_appetite := get h profile "risk_appetite" in
  let* profile := get h r "profile" in
  let* investment_period := get h profile "investment_period" in
  let* text := get h r "recommendation" in
  (* React then renders the children *)
  let* age := child h age in
  let* risk_appetite := child h risk_appetite in
  let* investment_period := child h investment_period in
  let* text := child h text in
  Normal {|
    profileAge := (age ++ [" years"])%list;
    profileIncome := "$" ++ income;
    profileRisk := risk_appetite;
    profilePeriod := (investment_period ++ [" years"])%list;
    advice := text
  |}.

(** [{recommendation && (...)}]. *)
Definition render (h : Host) (recommendation : JSON) : Completion (option Panel) :=
  if Js.truthy (Some recommendation) then
    let* p := renderPanel h recommendation in Normal (Some p)
  else Normal None.

(** *** The [PortfolioRecommendation] interface, lines 5-13 *)

Definition isProfile (v : Value) : bool :=
  match v with
  | Some (JObject ms) =>
      match Js.member "age" ms, Js.member "income" ms,
            Js.member "risk_appetite" ms, Js.member "investment_period" ms with
      | Some (JNumber _), Some (JNumber _), Some (JString _), Some (JNumber _) => true
      | _, _, _, _ => false
      end
  | _ => false
  end.

Definition isPortfolioRecommendation (v : JSON) : bool :=
  match v with
  | JObject ms =>
      isProfile (Js.member "profile" ms)
      && match Js.member "recommendation" ms with
         | Some (JString _) => true
         | _ => false
         end
  | _ => false
  end.

End PortfolioPage.

(** ** The sentiment page ([src/app/portfolio/page.tsx], second component) *)

Module SentimentPage.

Record State : Type := {
  symbol : string;
  days : string;
  loading : bool;
  analysis : JSON;
  error : string
}.

Definition setLoading (b : bool) : M.t State unit :=
  M.emit (ESetLoading b) ;;
  M.update (fun s => {| symbol := symbol s; days := days s; loading := b;
                        analysis := analysis s; error := error s |}).

Definition setAnalysis (v : JSON) : M.t State unit :=
  M.emit (ESetResult v) ;;
  M.update (fun s => {| symbol := symbol s; days := days s; loading := loading s;
                        analysis := v; error := error s |}).

Definition setError (m : string) : M.t State unit :=
  M.emit (ESetError m) ;;
  M.update (fun s => {| symbol := symbol s; days := days s; loading := loading s;
                        analysis := analysis s; error := m |}).

Definition analyzeRequest (h : Host) (symbol days : string) : Request :=
  {| method := "POST";
     url := backend ++ "/analyze/sentiment";
     headers := [("Content-Type", "application/json"); ("Accept", "application/json")];
     body := Some (JObject
       [("symbol", JString (toUpperCase h symbol));
        ("days", JNumber (parseInt h days))]) |}.

(** The [try] block, lines 230-255. *)
Definition requestAnalysis (h : Host) (symbol days : string) : M.t State unit :=
  healthCheck <- M.catch_null (fetch h healthRequest) ;;
  match healthCheck with
  | None => M.throw (ErrorObject backendNotRunning)
  | Some _ =>
      response <- fetch h (analyzeRequest h symbol days) ;;
      if negb (ok response) then
        errorData <- response_json response ;;
        detail <- M.lift (get h (Some errorData) "detail") ;;
        err <- M.lift (new_Error h detail "Failed to analyze sentiment") ;;
        M.throw err
      else
        data <- response_json response ;;
        setAnalysis data
  end.

(** The [catch] block, lines 256-266. *)
Definition reportError (err : Thrown) : M.t State unit :=
  M.emit (EConsoleError (Some "Sentiment analysis error:") err) ;;
  let errorMessage := message_or err "Failed to analyze sentiment. Please try again." in
  setError errorMessage ;;
  if JsString.includes errorMessage failedToFetch
  then setError unableToConnect
  else M.ret tt.

Definition handleAnalyze (h : Host) : M.t State unit :=
  M.emit EPreventDefault ;;
  symbol <- M.read symbol ;;
  days <- M.read days ;;
  if JsString.falsy symbol then
    setError "Please enter a stock symbol"
  else
    setLoading true ;;
    setError EmptyString ;;
    setAnalysis JNull ;;
    M.try_catch_finally
      (requestAnalysis h symbol days)
      reportError
      (setLoading false).

(** *** The controls of the form, lines 272-316 *)

Definition setSymbol (v : string) : M.t State unit :=
  M.update (fun s => {| symbol := v; days := days s; loading := loading s;
                        analysis := analysis s; error := error s |}).

(** The handler of the "Try Again" button. *)
Definition handleRetry : M.t State unit :=
  setError EmptyString ;;
  setAnalysis JNull.

(** [onChange={(e) => setSymbol(e.target.value.toUpperCase())}]. *)
Definition onSymbolChange (h : Host) (value : string) : M.t State unit :=
  setSymbol (toUpperCase h value).

(** What the symbol input declares, lines 294-295: [required] and
    [pattern="[A-Za-z]+"], matched against the whole value. *)
Definition symbolInputAccepts (value : string) : bool :=
  negb (JsString.falsy value)
  && JsString.all (fun c => JsString.isUpper c || JsString.isLower c) value.

(** *** The error panel, lines 347-368 *)

Record ErrorPanel : Type := {
  text : string;
  (** the paragraph with the command that starts the backend *)
  startHint : bool
}.

Definition renderError (error : string) : option ErrorPanel :=
  if JsString.falsy error then None
  else Some {| text := error; startHint := JsString.includes error "backend server" |}.

(** *** The result panels, lines 370-415 *)

Record Panels : Type := {
  heading : list string;
  periodDays : list string;
  newsCount : list string;
  analyzedArticles : list string;
  (** the chips of the "News Sources" panel, when it is rendered *)
  newsSources : option (list (list string));
  sentiment : list string
}.

(** [sources.length > 0].  An array and a string have a length of their
    own; a number or a boolean has none, and [undefined > 0] is false;
    a parsed object has at most a member of that name. *)
Definition hasItems (h : Host) (sources : Value) : Completion bool :=
  match sources with
  | None | Some JNull => hostError h (ReadPropertyOfNullish "length")
  | Some (JArray items) => Normal (negb (Nat.eqb (List.length items) 0))
  | Some (JString s) => Normal (negb (JsString.falsy s))
  | Some (JObject ms) =>
      let* n := toNumber h (Js.member "length" ms) in
      Normal (PrimFloat.ltb 0%float n)
  | Some _ => Normal false
  end.

(** [sources.map((source, index) => ...)]: only an array has the
    method. *)
Definition mapItems (h : Host) (sources : Value) : Completion (list JSON) :=
  match sources with
  | Some (JArray items) => Normal items
  | None | Some JNull => hostError h (ReadPropertyOfNullish "map")
  | Some _ => hostError h (NotAFunction "analysis.sources.map")
  end.

Fixpoint chips (h : Host) (items : list JSON) : Completion (list (list string)) :=
  match items with
  | [] => Normal []
  | source :: rest =>
      let* c := childJSON h source in
      let* cs := chips h rest in
      Normal (c :: cs)
  end.

Definition renderPanels (h : Host) (analysis : JSON) : Completion Panels :=
  let a := Some analysis in
  (* the expressions of the JSX tree, in source order *)
  let* company_name := get h a "company_name" in
  let* symbol := get h a "symbol" in
  let* period_days := get h a "period_days" in
  let* news_count := get h a "news_count" in
  let* analyzed_articles := get h a "analyzed_articles" in
  let* sources := get h a "sources" in
  let* some := hasItems h sources in
  let* items :=
    (if some
     then let* sources := get h a "sources" in
          let* items := mapItems h sources in Normal (Some items)
     else Normal None) in
  let* sentiment_analysis := get h a "sentiment_analysis" in
  (* React then renders the children *)
  let* company_name := child h company_name in
  let* symbol := child h symbol in
  let* period_days := child h period_days in
  let* news_count := child h news_count in
  let* analyzed_articles := child h analyzed_articles in
  let* items :=
    match items with
    | Some l => let* cs := chips h l in Normal (Some cs)
    | None => Normal None
    end in
  let* sentiment_analysis := child h sentiment_analysis in
  Normal {|
    heading :=
      (["Sentiment Analysis for "] ++ company_name ++ [" ("] ++ symbol ++ [")"])%list;
    periodDays := (["Last "] ++ period_days ++ [" days"])%list;
    newsCount := news_count;
    analyzedArticles := analyzed_articles;
    newsSources := items;
    sentiment := sentiment_analysis
  |}.

(** [{analysis && (...)}]. *)
Definition render (h : Host) (analysis : JSON) : Completion (option Panels) :=
  if Js.truthy (Some analysis) then
    let* p := renderPanels h analysis in Normal (Some p)
  else Normal None.

(** *** The [SentimentAnalysis] interface, lines 201-209 *)

Definition isStringItem (v : JSON) : bool :=
  match v with JString _ => true | _ => false end.

Definition sourcesOf (v : JSON) : list string :=
  match v with
  | JObject ms =>
      match Js.member "sources" ms with
      | Some (JArray items) =>
          flat_map (fun i => match i with JString s => [s] | _ => [] end) items
      | _ => []
      end
  | _ => []
  end.

Definition isSentimentAnalysis (v : JSON) : bool :=
  match v with
  | JObject ms =>
      match Js.member "symbol" ms, Js.member "company_name" ms,
            Js.member "sentiment_analysis" ms with
      | Some (JString _), Some (JString _), Some (JString _) =>
          match Js.member "news_count" ms, Js.member "analyzed_articles" ms,
                Js.member "period_days" ms with
          | Some (JNumber _), Some (JNumber _), Some (JNumber _) =>
              match Js.member "sources" ms with
              | Some (JArray items) => forallb isStringItem items
              | _ => false
              end
          | _, _, _ => false
          end
      | _, _, _ => false
      end
  | _ => false
  end.

End SentimentPage.

(** * Vocabulary of the properties *)

(** One invocation of a handler on the component state [s], from an
    empty trace. *)
Definition invoke {S A} (m : M.t S A) (s : S) : Completion A * World S :=
  m {| ui := s; trace := [] |}.

Definition exec {S A} (m : M.t S A) (s : S) : World S := snd (invoke m s).

Definition posts (t : list Event) : list Request :=
  filter (fun r => String.eqb (method r) "POST") (requests t).

Fixpoint assoc (key : string) (l : list (string * string)) : option string :=
  match l with
  | [] => None
  | (k, v) :: rest => if String.eqb k key then Some v else assoc key rest
  end.

Definition header (name : string) (r : Request) : option string :=
  assoc name (headers r).

(** A member of the object a request carries as its body. *)
Definition bodyField (key : string) (r : Request) : Value :=
  match body r with
  | Some (JObject ms) => Js.member key ms
  | _ => None
  end.


(** The error a [catch] block received: every one of them logs it with
    [console.error]. *)
Fixpoint caught (t : list Event) : option Thrown :=
  match t with
  | [] => None
  | e :: rest =>
      match caught rest with
      | Some err => Some err
      | None => match e with EConsoleError _ err => Some err | _ => None end
      end
  end.

Definition isLetter (c : ascii) : bool := JsString.isUpper c || JsString.isLower c.

(** 1 to 5 letters. *)
Definition isTicker (s : string) : bool :=
  ((1 <=? String.length s) && (String.length s <=? 5))%nat && JsString.all isLetter s.

(** What a response that is answered with a 2xx status and a JSON body
    carries. *)
Definition answered (o : FetchOutcome) : option JSON :=
  match o with
  | Resolves r =>
      if ok r then
        match json r with
        | JsonResolves data => Some data
        | JsonRejects _ => None
        end
      else None
  | Rejects _ => None
  end.

Definition probed (h : Host) : bool :=
  match network h healthRequest with
  | Resolves _ => true
  | Rejects _ => false
  end.

Module StockFacts.
Import StockAnalysisPage.

Definition cleanSymbol (h : Host) (s : State) : string :=
  toUpperCase h (trim h (symbol s)).

(** The invocation passes the two validation guards. *)
Definition valid (h : Host) (s : State) : bool :=
  negb (JsString.falsy (symbol s)) && symbolPattern (cleanSymbol h s).

(** The body of a successful exchange: probe answered, then a 2xx JSON
    answer to the POST. *)
Definition answer (h : Host) (s : State) : option JSON :=
  if probed h then answered (network h (analyzeRequest (cleanSymbol h s) (period s)))
  else None.

(** What the [catch] block leaves in the error state for [err]. *)
Definition shown (err : Thrown) : string :=
  let m := message_or err "Failed to analyze stock. Please try again." in
  if JsString.includes m failedToFetch then unableToConnect else m.

(** The requests of an invocation: none when validation rejects the
    input, else the probe, and the POST once the probe is answered. *)
Definition expected (h : Host) (s : State) : list Request :=
  if valid h s then
    if probed h
    then [healthRequest; analyzeRequest (cleanSymbol h s) (period s)]
    else [healthRequest]
  else [].

End StockFacts.

Module SentimentFacts.
Import SentimentPage.

Definition valid (s : State) : bool := negb (JsString.falsy (symbol s)).

Definition answer (h : Host) (s : State) : option JSON :=
  if probed h then answered (network h (analyzeRequest h (symbol s) (days s)))
  else None.

Definition shown (err : Thrown) : string :=
  let m := message_or err "Failed to analyze sentiment. Please try again." in
  if JsString.includes m failedToFetch then unableToConnect else m.

Definition expected (h : Host) (s : State) : list Request :=
  if valid s then
    if probed h
    then [healthRequest; analyzeRequest h (symbol s) (days s)]
    else [healthRequest]
  else [].

End SentimentFacts.

Module PortfolioFacts.
Import PortfolioPage.

Definition answer (h : Host) (s : State) : option JSON :=
  answered (network h (recommendRequest h (formData s))).

Definition shown (err : Thrown) : string :=
  message_or err "Failed to get portfolio recommendation. Please try again.".

End PortfolioFacts.

(** * Example hosts *)

Definition digit (c : ascii) : option float :=
  if ((48 <=? JsString.code c) && (JsString.code c <=? 57))%nat
  then nth_error [0; 1; 2; 3; 4; 5; 6; 7; 8; 9]%float (JsString.code c - 48)
  else None.

Fixpoint decimal (s : string) (acc : option float) : option float :=
  match s with
  | EmptyString => acc
  | String c r =>
      match digit c with
      | Some d =>
          decimal r (Some (PrimFloat.add (PrimFloat.mul
            (match acc with Some a => a | None => 0%float end) 10%float) d))
      | None => acc
      end
  end.

(** [parseInt] on unsigned decimal input: the leading digits, or NaN. *)
Definition parseDecimal (s : string) : float :=
  match decimal (JsString.trimStartAscii s) None with
  | Some x => x
  | None => nan
  end.

(** An engine for the examples reads a character above 127 as the
    Latin-1 character of that code: it trims the no-break space U+00A0
    with the ASCII white space, and upper-cases U+00DF to SS. *)
Definition isSpaceLatin1 (c : ascii) : bool :=
  JsString.isWhiteSpaceAscii c || (JsString.code c =? 160)%nat.

Fixpoint trimStartLatin1 (s : string) : string :=
  match s with
  | EmptyString => EmptyString
  | String c r => if isSpaceLatin1 c then trimStartLatin1 r else s
  end.

Fixpoint trimEndLatin1 (s : string) : string :=
  match s with
  | EmptyString => EmptyString
  | String c r =>
      match trimEndLatin1 r with
      | EmptyString => if isSpaceLatin1 c then EmptyString else String c EmptyString
      | r' => String c r'
      end
  end.

Definition trimLatin1 (s : string) : string := trimEndLatin1 (trimStartLatin1 s).

Fixpoint toUpperCaseLatin1 (s : string) : string :=
  match s with
  | EmptyString => EmptyString
  | String c r =>
      if (JsString.code c =? 223)%nat then "SS" ++ toUpperCaseLatin1 r
      else String (JsString.upperCharAscii c) (toUpperCaseLatin1 r)
  end.

(** A host that answers the health probe with [health] and every other
    request with [post]. *)
Definition scriptedHost (health post : FetchOutcome) : Host :=
  {| network := fun r => if String.eqb (method r) "GET" then health else post;
     String_trim := trimLatin1;
     String_toUpperCase := toUpperCaseLatin1;
     ToString := fun _ => Normal "[object Object]";
     ToNumber := fun _ => Normal nan;
     Number_toFixed := fun _ _ => "0.00";
     Number_toLocaleString := fun _ => "0";
     toLocaleStringOther := fun _ => Normal "[object Object]";
     parseInt := parseDecimal;
     parseFloat := parseDecimal;
     hostErrorMessage := fun _ => "TypeError" |}.

Definition respond (status : Z) (data : JSON) : FetchOutcome :=
  Resolves {| status := status; json := JsonResolves data |}.

Definition healthy : FetchOutcome := respond 200 (JObject [("status", JString "healthy")]).

Definition unreachable : FetchOutcome := Rejects (ErrorObject "Failed to fetch").

Definition detailBody (detail : string) : JSON := JObject [("detail", JString detail)].

(** A refusal as the backend words it: HTTP 429 with a [detail]. *)
Definition rateLimited : Response :=
  {| status := 429; json := JsonResolves (detailBody "Rate limit exceeded") |}.

Definition stockForm (symbol : string) (shownResult : JSON) : StockAnalysisPage.State :=
  {| StockAnalysisPage.symbol := symbol;
     StockAnalysisPage.period := "1y";
     StockAnalysisPage.loading := false;
     StockAnalysisPage.analysis := shownResult;
     StockAnalysisPage.error := EmptyString |}.

Definition sentimentForm (symbol : string) : SentimentPage.State :=
  {| SentimentPage.symbol := symbol;
     SentimentPage.days := "7";
     SentimentPage.loading := false;
     SentimentPage.analysis := JNull;
     SentimentPage.error := EmptyString |}.

Definition portfolioForm (age : string) : PortfolioPage.State :=
  {| PortfolioPage.formData :=
       {| PortfolioPage.age := age;
          PortfolioPage.income := "50000";
          PortfolioPage.risk_appetite := "medium";
          PortfolioPage.investment_period := "10" |};
     PortfolioPage.loading := false;
     PortfolioPage.recommendation := JNull;
     PortfolioPage.error := EmptyString |}.

(** A response body of the [StockAnalysis] shape. *)
Definition appleAnalysis : JSON :=
  JObject
    [("symbol", JString "AAPL");
     ("company_name", JString "Apple Inc.");
     ("sector", JString "Technology");
     ("industry", JString "Consumer Electronics");
     ("current_price", JNumber 189.5%float);
     ("price_change", JNumber (-1.25)%float);
     ("market_cap", JNumber 2.9e12%float);
     ("pe_ratio", JNull);
     ("fifty_two_week", JObject [("high", JNumber 199%float); ("low", JNumber 124%float)]);
     ("technical_indicators",
       JObject
         [("trend", JString "Bullish");
          ("rsi", JNumber 55%float);
          ("macd", JNumber 0.5%float);
          ("sma20", JNumber 185%float);
          ("sma50", JNumber 180%float);
          ("volatility", JNumber 0.25%float);
          ("average_volume", JNumber 5e7%float)]);
     ("analysis", JString "Steady.")].

(** * Vocabulary of the further properties *)

(** The toasts of a trace. *)
Definition toasts (t : list Event) : list string :=
  flat_map (fun e => match e with EToastSuccess m => [m] | _ => [] end) t.

(** The errors a trace logged with [console.error]. *)
Definition logged (t : list Event) : list Thrown :=
  flat_map (fun e => match e with EConsoleError _ err => [err] | _ => [] end) t.

(** What every handler does before its [try] block. *)
Definition prelude : list Event :=
  [EPreventDefault; ESetLoading true; ESetError EmptyString; ESetResult JNull].

(** The engine prints every number: ToString raises nothing on one. *)
Definition printsNumbers (h : Host) : Prop :=
  forall x, exists s, ToString h (JNumber x) = Normal s.

(** The members of the response the stock panels read. *)
Definition stockPanelKeys : list string :=
  ["company_name"; "symbol"; "current_price"; "price_change"; "sector";
   "industry"; "technical_indicators"; "market_cap"; "analysis"].

(** The state of the stock page once [value] was typed into the symbol
    input. *)
Definition typedStock (h : Host) (value : string) (s : StockAnalysisPage.State)
  : StockAnalysisPage.State :=
  ui (exec (StockAnalysisPage.onSymbolChange h value) s).

Definition typedSentiment (h : Host) (value : string) (s : SentimentPage.State)
  : SentimentPage.State :=
  ui (exec (SentimentPage.onSymbolChange h value) s).

(** The state of the portfolio page once [value] was entered in the
    control [name]. *)
Definition entered (name : PortfolioPage.InputName) (value : string)
    (s : PortfolioPage.State) : PortfolioPage.State :=
  ui (exec (PortfolioPage.handleInputChange name value) s).

(** A sentiment response of the documented shape. *)
Definition appleSentiment : JSON :=
  JObject
    [("symbol", JString "AAPL");
     ("company_name", JString "Apple Inc.");
     ("sentiment_analysis", JString "Mostly positive.");
     ("news_count", JNumber 12%float);
     ("analyzed_articles", JNumber 10%float);
     ("period_days", JNumber 7%float);
     ("sources", JArray [JString "Reuters"; JString "Bloomberg"])].

(** A portfolio response of the documented shape. *)
Definition balancedRecommendation : JSON :=
  JObject
    [("profile",
       JObject
         [("age", JNumber 30%float);
          ("income", JNumber 50000%float);
          ("risk_appetite", JString "medium");
          ("investment_period", JNumber 10%float)]);
     ("recommendation", JString "60% equities, 40% bonds.")].

Ltac unfold_controls :=
  cbv beta iota delta
    [StockAnalysisPage.handleRetry StockAnalysisPage.onSymbolChange
     StockAnalysisPage.onStockClick StockAnalysisPage.onPeriodChange
     StockAnalysisPage.setSymbol StockAnalysisPage.setPeriod
     SentimentPage.handleRetry SentimentPage.onSymbolChange SentimentPage.setSymbol
     PortfolioPage.handleInputChange PortfolioPage.setFormData].


(** A refusal body without a usable [detail]: the member is missing,
    null or the empty string. *)
Definition noDetail (ms : list (string * JSON)) : bool :=
  match Js.member "detail" ms with
  | None | Some JNull => true
  | Some (JString d) => JsString.falsy d
  | Some _ => false
  end.

(** * Proof automation: symbolic execution of a handler *)

Arguments healthRequest : simpl never.
Arguments StockAnalysisPage.analyzeRequest : simpl never.
Arguments SentimentPage.analyzeRequest : simpl never.
Arguments PortfolioPage.recommendRequest : simpl never.
Arguments StockAnalysisPage.noDataMessage : simpl never.
Arguments StockAnalysisPage.noDataFound : simpl never.
Arguments StockAnalysisPage.symbolPattern : simpl never.
Arguments backendNotRunning : simpl never.
Arguments unableToConnect : simpl never.
Arguments failedToFetch : simpl never.
Arguments JsString.includes : simpl never.
Arguments toUpperCase : simpl never.
Arguments trim : simpl never.
Arguments ok : simpl never.

Ltac unfold_handlers :=
  cbv beta iota delta
    [exec invoke M.bind M.ret M.throw M.lift M.emit M.read M.update
     M.try_catch_finally M.catch_null fetch response_json
     StockAnalysisPage.handleAnalyze StockAnalysisPage.requestAnalysis
     StockAnalysisPage.reportError StockAnalysisPage.setError
     StockAnalysisPage.setLoading StockAnalysisPage.setAnalysis
     SentimentPage.handleAnalyze SentimentPage.requestAnalysis
     SentimentPage.reportError SentimentPage.setError
     SentimentPage.setLoading SentimentPage.setAnalysis
     PortfolioPage.handleSubmit PortfolioPage.requestRecommendation
     PortfolioPage.reportError PortfolioPage.setError
     PortfolioPage.setLoading PortfolioPage.setRecommendation].

(** One step: rewrite a known answer, or split on the innermost
    undecided test. *)
Ltac branch :=
  match goal with
  | H : ?x = _ |- context [match ?y with _ => _ end] =>
      lazymatch y with context [x] => rewrite H end
  | |- context [match ?x with _ => _ end] =>
      lazymatch x with
      | context [match _ with _ => _ end] => fail
      | _ => destruct x eqn:?
      end
  end.

Ltac symex :=
  unfold_handlers; cbn;
  repeat (branch; cbn in *; try discriminate; try congruence).

Ltac stock_valid H :=
  unfold StockFacts.valid, StockFacts.cleanSymbol in H;
  apply andb_prop in H as [?Hf ?Hp]; apply negb_true_iff in Hf.

Ltac use_includes :=
  repeat match goal with
         | H : JsString.includes _ _ = _ |- _ => rewrite H
         end.

Ltac distinct_requests :=
  repeat constructor; cbn; try tauto;
  try (intros [E|[]]; apply (f_equal method) in E; discriminate E).

(** * Facts about strings *)

Section Strings.
Import JsString.

Lemma isUpper_upperChar c : isUpper (upperCharAscii c) = isLetter c.
Proof.
  destruct c as [[] [] [] [] [] [] [] []]; reflexivity.
Qed.

Lemma toUpperCase_length t : String.length (toUpperCaseAscii t) = String.length t.
Proof. induction t as [|c t IH]; simpl; congruence. Qed.

Lemma all_upper_toUpperCase t : all isUpper (toUpperCaseAscii t) = all isLetter t.
Proof.
  induction t as [|c t IH]; simpl; [reflexivity|].
  now rewrite isUpper_upperChar, IH.
Qed.

Lemma symbolPattern_toUpperCase t :
  StockAnalysisPage.symbolPattern (toUpperCaseAscii t) = isTicker t.
Proof.
  unfold StockAnalysisPage.symbolPattern, isTicker.
  now rewrite toUpperCase_length, all_upper_toUpperCase.
Qed.

Lemma prefix_app_l p q s : String.prefix (p ++ q) s = true -> String.prefix p s = true.
Proof.
  revert s; induction p as [|a p IH]; intros s H.
  - now destruct s.
  - destruct s as [|b s]; simpl in *; [discriminate|].
    destruct (ascii_dec a b); [auto | discriminate].
Qed.

Lemma includes_nil sub : includes EmptyString sub = String.prefix sub EmptyString.
Proof. unfold includes. apply orb_false_r. Qed.

Lemma includes_cons c s sub :
  includes (String c s) sub = String.prefix sub (String c s) || includes s sub.
Proof. reflexivity. Qed.

Lemma includes_app_l p q s : includes s (p ++ q) = true -> includes s p = true.
Proof.
  induction s as [|c s IH]; intros H.
  - rewrite includes_nil in *. now apply prefix_app_l in H.
  - rewrite includes_cons in *.
    apply orb_true_iff in H as [H|H].
    + apply prefix_app_l in H. now rewrite H.
    + rewrite (IH H). apply orb_true_r.
Qed.

Lemma upper_not_a b : isUpper b = true -> b <> "a"%char.
Proof. intros H ->. vm_compute in H. discriminate H. Qed.

Lemma includes_Fa_upper c tail :
  all isUpper c = true ->
  String.prefix "a" tail = false ->
  includes tail "Fa" = false ->
  includes (c ++ tail) "Fa" = false.
Proof.
  induction c as [|a c IH]; intros Hc Hp Ht; [exact Ht|].
  simpl in Hc. apply andb_prop in Hc as [Ha Hc].
  cbn [append]. rewrite includes_cons, (IH Hc Hp Ht), orb_false_r.
  cbn [String.prefix].
  destruct (ascii_dec "F" a); [|reflexivity].
  destruct c as [|b c]; cbn [append].
  - destruct tail as [|x tail]; [reflexivity|].
    cbn [String.prefix] in Hp |- *.
    destruct (ascii_dec "a" x); [|reflexivity].
    destruct tail; discriminate Hp.
  - simpl in Hc. apply andb_prop in Hc as [Hb _].
    cbn [String.prefix].
    destruct (ascii_dec "a" b) as [<-|]; [|reflexivity].
    vm_compute in Hb. discriminate Hb.
Qed.

Lemma noDataMessage_not_fetch c :
  StockAnalysisPage.symbolPattern c = true ->
  includes (StockAnalysisPage.noDataMessage c) failedToFetch = false.
Proof.
  intros H. unfold StockAnalysisPage.symbolPattern in H.
  apply andb_prop in H as [_ H].
  destruct (includes (StockAnalysisPage.noDataMessage c) failedToFetch) eqn:E; [|reflexivity].
  change failedToFetch with ("Fa" ++ "iled to fetch") in E.
  apply includes_app_l in E.
  unfold StockAnalysisPage.noDataMessage, dquote in E.
  cbn [append] in E.
  repeat (rewrite includes_cons in E; cbn [String.prefix ascii_dec ascii_rec ascii_rect
    Bool.bool_dec bool_rec bool_rect sumbool_rec sumbool_rect eq_rec_r eq_rec eq_rect
    orb] in E).
  rewrite includes_Fa_upper in E; [discriminate| assumption | reflexivity | reflexivity].
Qed.
Lemma isAscii_trimStartAscii s :
  isAscii s = true -> isAscii (trimStartAscii s) = true.
Proof.
  induction s as [|c s IH]; [reflexivity|].
  cbn [trimStartAscii]. intros H.
  destruct (isWhiteSpaceAscii c); [|exact H].
  cbn [isAscii] in H. apply andb_prop in H as [_ H]. auto.
Qed.

Lemma isAscii_trimEndAscii s :
  isAscii s = true -> isAscii (trimEndAscii s) = true.
Proof.
  induction s as [|c s IH]; [reflexivity|].
  cbn [isAscii trimEndAscii]. intros H. apply andb_prop in H as [Hc Hs].
  specialize (IH Hs). destruct (trimEndAscii s) as [|d r].
  - destruct (isWhiteSpaceAscii c); [reflexivity|].
    cbn [isAscii]. now rewrite Hc.
  - change (isAscii (String c (String d r))) with
      ((code c <? 128)%nat && isAscii (String d r)).
    now rewrite Hc, IH.
Qed.

Lemma isAscii_trimAscii s : isAscii s = true -> isAscii (trimAscii s) = true.
Proof.
  intros H. unfold trimAscii.
  now apply isAscii_trimEndAscii, isAscii_trimStartAscii.
Qed.

Lemma isAscii_toUpperCaseAscii s :
  isAscii s = true -> isAscii (toUpperCaseAscii s) = true.
Proof.
  induction s as [|c s IH]; [reflexivity|].
  cbn [isAscii toUpperCaseAscii]. intros H. apply andb_prop in H as [Hc Hs].
  rewrite (IH Hs), andb_true_r.
  destruct c as [[] [] [] [] [] [] [] []]; try reflexivity; discriminate Hc.
Qed.

End Strings.

(** On a string of ASCII characters the engine has no say. *)
Lemma trim_on_ascii h s :
  JsString.isAscii s = true -> trim h s = JsString.trimAscii s.
Proof. intros H. unfold trim. now rewrite H. Qed.

Lemma toUpperCase_on_ascii h s :
  JsString.isAscii s = true -> toUpperCase h s = JsString.toUpperCaseAscii s.
Proof. intros H. unfold toUpperCase. now rewrite H. Qed.

Lemma cleaned_ascii h s :
  JsString.isAscii s = true ->
  toUpperCase h (trim h s) = JsString.toUpperCaseAscii (JsString.trimAscii s).
Proof.
  intros H. rewrite (trim_on_ascii h s H).
  apply toUpperCase_on_ascii. now apply isAscii_trimAscii.
Qed.

(** * The handlers *)

(** Closes a failure branch: the result is null, and the error state is
    what the page shows for the error the trace recorded. *)
Ltac reported :=
  split; [reflexivity | eexists; split; [reflexivity | cbn; use_includes; reflexivity]].

(** Closes a failure branch: the logged error is the one the host's
    answers determine. *)
Ltac pinned :=
  eexists; repeat split; try reflexivity;
  try (cbn; use_includes; reflexivity);
  intros; congruence.

Section Handlers.
Variable h : Host.

(** ** Validation *)

Lemma stock_valid_pattern s :
  StockFacts.valid h s
  = StockAnalysisPage.symbolPattern
      (toUpperCase h (trim h (StockAnalysisPage.symbol s))).
Proof.
  unfold StockFacts.valid, StockFacts.cleanSymbol.
  destruct (StockAnalysisPage.symbol s); reflexivity.
Qed.

Lemma stock_valid_ticker s :
  JsString.isAscii (StockAnalysisPage.symbol s) = true ->
  StockFacts.valid h s = isTicker (JsString.trimAscii (StockAnalysisPage.symbol s)).
Proof.
  intros Ha. rewrite stock_valid_pattern, (cleaned_ascii h _ Ha).
  apply symbolPattern_toUpperCase.
Qed.

Lemma stock_rejected s :
  StockFacts.valid h s = false ->
  let w := exec (StockAnalysisPage.handleAnalyze h) s in
  trace w = [EPreventDefault; ESetError (StockAnalysisPage.error (ui w))]
  /\ (StockAnalysisPage.error (ui w) = "Please enter a stock symbol"
      \/ StockAnalysisPage.error (ui w) = "Please enter a valid stock symbol (1-5 letters)")
  /\ StockAnalysisPage.analysis (ui w) = StockAnalysisPage.analysis s
  /\ StockAnalysisPage.loading (ui w) = StockAnalysisPage.loading s.
Proof.
  unfold StockFacts.valid, StockFacts.cleanSymbol. intros Hv.
  unfold_handlers; cbn.
  destruct (JsString.falsy (StockAnalysisPage.symbol s)); cbn in *; [auto|].
  rewrite Hv; cbn. auto.
Qed.

Lemma sentiment_rejected s :
  SentimentFacts.valid s = false ->
  let w := exec (SentimentPage.handleAnalyze h) s in
  trace w = [EPreventDefault; ESetError "Please enter a stock symbol"]
  /\ SentimentPage.error (ui w) = "Please enter a stock symbol"
  /\ SentimentPage.analysis (ui w) = SentimentPage.analysis s
  /\ SentimentPage.loading (ui w) = SentimentPage.loading s.
Proof.
  unfold SentimentFacts.valid. intros Hv. apply negb_false_iff in Hv.
  unfold_handlers; cbn. rewrite Hv; cbn. auto.
Qed.

Lemma sentiment_probes s :
  SentimentFacts.valid s = true ->
  hd_error (requests (trace (exec (SentimentPage.handleAnalyze h) s))) = Some healthRequest.
Proof.
  unfold SentimentFacts.valid. intros Hv. apply negb_true_iff in Hv.
  symex; reflexivity.
Qed.

Lemma portfolio_posts s :
  requests (trace (exec (PortfolioPage.handleSubmit h) s))
  = [PortfolioPage.recommendRequest h (PortfolioPage.formData s)].
Proof. symex; reflexivity. Qed.

(** ** The [finally] block *)

Lemma stock_settles s :
  StockFacts.valid h s = true ->
  StockAnalysisPage.loading (ui (exec (StockAnalysisPage.handleAnalyze h) s)) = false
  /\ fst (invoke (StockAnalysisPage.handleAnalyze h) s) = Normal tt.
Proof. intros Hv. stock_valid Hv. symex; auto. Qed.

Lemma sentiment_settles s :
  SentimentFacts.valid s = true ->
  SentimentPage.loading (ui (exec (SentimentPage.handleAnalyze h) s)) = false
  /\ fst (invoke (SentimentPage.handleAnalyze h) s) = Normal tt.
Proof.
  unfold SentimentFacts.valid. intros Hv. apply negb_true_iff in Hv.
  symex; auto.
Qed.

Lemma portfolio_settles s :
  PortfolioPage.loading (ui (exec (PortfolioPage.handleSubmit h) s)) = false
  /\ fst (invoke (PortfolioPage.handleSubmit h) s) = Normal tt.
Proof. symex; auto. Qed.

(** ** The health probe *)

Lemma stock_probe_fails s e :
  network h healthRequest = Rejects e ->
  StockFacts.valid h s = true ->
  let w := exec (StockAnalysisPage.handleAnalyze h) s in
  StockAnalysisPage.error (ui w) = backendNotRunning
  /\ requests (trace w) = [healthRequest].
Proof. intros Hn Hv. stock_valid Hv. symex; auto. Qed.

Lemma sentiment_probe_fails s e :
  network h healthRequest = Rejects e ->
  SentimentFacts.valid s = true ->
  let w := exec (SentimentPage.handleAnalyze h) s in
  SentimentPage.error (ui w) = backendNotRunning
  /\ requests (trace w) = [healthRequest].
Proof.
  unfold SentimentFacts.valid. intros Hn Hv. apply negb_true_iff in Hv.
  symex; auto.
Qed.

(** ** The requests of one invocation *)

Lemma stock_requests s :
  let t := trace (exec (StockAnalysisPage.handleAnalyze h) s) in
  requests t = []
  \/ requests t = [healthRequest]
  \/ (StockFacts.valid h s = true /\
      requests t = [healthRequest;
                    StockAnalysisPage.analyzeRequest (StockFacts.cleanSymbol h s)
                      (StockAnalysisPage.period s)]).
Proof.
  destruct (StockFacts.valid h s) eqn:Hv.
  - unfold StockFacts.cleanSymbol. stock_valid Hv. symex; auto.
  - left. apply stock_rejected in Hv as (Ht & _). cbv zeta in Ht.
    cbv zeta. now rewrite Ht.
Qed.

Lemma sentiment_requests s :
  let t := trace (exec (SentimentPage.handleAnalyze h) s) in
  requests t = []
  \/ requests t = [healthRequest]
  \/ requests t = [healthRequest;
                   SentimentPage.analyzeRequest h (SentimentPage.symbol s)
                     (SentimentPage.days s)].
Proof. symex; auto. Qed.

(** ** The state an invocation leaves *)

Lemma stock_outcome s :
  StockFacts.valid h s = true ->
  let w := exec (StockAnalysisPage.handleAnalyze h) s in
  match StockFacts.answer h s with
  | Some data =>
      StockAnalysisPage.error (ui w) = EmptyString
      /\ StockAnalysisPage.analysis (ui w) = data
  | None =>
      StockAnalysisPage.analysis (ui w) = JNull
      /\ exists e, caught (trace w) = Some e
                   /\ StockAnalysisPage.error (ui w) = StockFacts.shown e
  end.
Proof.
  intros Hv. stock_valid Hv.
  unfold StockFacts.answer, StockFacts.cleanSymbol, StockFacts.shown, probed, answered.
  symex; auto; reported.
Qed.

Lemma sentiment_outcome s :
  SentimentFacts.valid s = true ->
  let w := exec (SentimentPage.handleAnalyze h) s in
  match SentimentFacts.answer h s with
  | Some data =>
      SentimentPage.error (ui w) = EmptyString
      /\ SentimentPage.analysis (ui w) = data
  | None =>
      SentimentPage.analysis (ui w) = JNull
      /\ exists e, caught (trace w) = Some e
                   /\ SentimentPage.error (ui w) = SentimentFacts.shown e
  end.
Proof.
  unfold SentimentFacts.valid. intros Hv. apply negb_true_iff in Hv.
  unfold SentimentFacts.answer, SentimentFacts.shown, probed, answered.
  symex; auto; reported.
Qed.

Lemma portfolio_outcome s :
  let w := exec (PortfolioPage.handleSubmit h) s in
  match PortfolioFacts.answer h s with
  | Some data =>
      PortfolioPage.error (ui w) = EmptyString
      /\ PortfolioPage.recommendation (ui w) = data
  | None =>
      PortfolioPage.recommendation (ui w) = JNull
      /\ exists e, caught (trace w) = Some e
                   /\ PortfolioPage.error (ui w) = PortfolioFacts.shown e
  end.
Proof.
  unfold PortfolioFacts.answer, PortfolioFacts.shown, answered.
  symex; auto; reported.
Qed.

(** ** The [catch] blocks *)



Lemma portfolio_caught s e :
  caught (trace (exec (PortfolioPage.handleSubmit h) s)) = Some e ->
  PortfolioPage.error (ui (exec (PortfolioPage.handleSubmit h) s))
  = PortfolioFacts.shown e.
Proof.
  unfold PortfolioFacts.shown.
  symex; intros Hc; inversion Hc; subst; reflexivity.
Qed.

(** ** Failures are terminal *)




(** ** The [detail] of a refused request *)

Lemma stock_detail s r ms detail :
  StockFacts.valid h s = true ->
  probed h = true ->
  network h (StockAnalysisPage.analyzeRequest (StockFacts.cleanSymbol h s)
               (StockAnalysisPage.period s)) = Resolves r ->
  ok r = false ->
  json r = JsonResolves (JObject ms) ->
  Js.member "detail" ms = Some (JString detail) ->
  JsString.falsy detail = false ->
  StockAnalysisPage.error (ui (exec (StockAnalysisPage.handleAnalyze h) s))
  = if JsString.includes detail StockAnalysisPage.noDataFound
    then StockAnalysisPage.noDataMessage (StockFacts.cleanSymbol h s)
    else if JsString.includes detail failedToFetch then unableToConnect else detail.
Proof.
  intros Hv Hprobe Hn Hok Hj Hd Hne. stock_valid Hv.
  pose proof (noDataMessage_not_fetch _ Hp) as Hnf.
  unfold probed, StockFacts.cleanSymbol in *.
  destruct (network h healthRequest) eqn:Hh; [clear Hprobe|discriminate].
  symex; reflexivity.
Qed.

Lemma sentiment_detail s r ms detail :
  SentimentFacts.valid s = true ->
  probed h = true ->
  network h (SentimentPage.analyzeRequest h (SentimentPage.symbol s)
               (SentimentPage.days s)) = Resolves r ->
  ok r = false ->
  json r = JsonResolves (JObject ms) ->
  Js.member "detail" ms = Some (JString detail) ->
  JsString.falsy detail = false ->
  SentimentPage.error (ui (exec (SentimentPage.handleAnalyze h) s))
  = if JsString.includes detail failedToFetch then unableToConnect else detail.
Proof.
  unfold SentimentFacts.valid. intros Hv Hprobe Hn Hok Hj Hd Hne.
  apply negb_true_iff in Hv. unfold probed in *.
  destruct (network h healthRequest) eqn:Hh; [clear Hprobe|discriminate].
  symex; reflexivity.
Qed.

Lemma portfolio_detail s r ms detail :
  network h (PortfolioPage.recommendRequest h (PortfolioPage.formData s)) = Resolves r ->
  ok r = false ->
  json r = JsonResolves (JObject ms) ->
  Js.member "detail" ms = Some (JString detail) ->
  JsString.falsy detail = false ->
  PortfolioPage.error (ui (exec (PortfolioPage.handleSubmit h) s)) = detail.
Proof.
  intros Hn Hok Hj Hd Hne. symex; reflexivity.
Qed.

End Handlers.

(** * The result panels *)

Lemma isString_inv v :
  StockAnalysisPage.isString v = true -> exists s, v = Some (JString s).
Proof. destruct v as [[]|]; try discriminate. eauto. Qed.

Lemma isNumber_inv v :
  StockAnalysisPage.isNumber v = true -> exists x, v = Some (JNumber x).
Proof. destruct v as [[]|]; try discriminate. eauto. Qed.

Lemma isTechnicalIndicators_inv v :
  StockAnalysisPage.isTechnicalIndicators v = true ->
  exists ms, v = Some (JObject ms)
    /\ StockAnalysisPage.isString (Js.member "trend" ms) = true
    /\ StockAnalysisPage.isNumber (Js.member "rsi" ms) = true
    /\ StockAnalysisPage.isNumber (Js.member "macd" ms) = true
    /\ StockAnalysisPage.isNumber (Js.member "sma20" ms) = true
    /\ StockAnalysisPage.isNumber (Js.member "sma50" ms) = true
    /\ StockAnalysisPage.isNumber (Js.member "volatility" ms) = true
    /\ StockAnalysisPage.isNumber (Js.member "average_volume" ms) = true.
Proof.
  destruct v as [[]|]; try discriminate. cbn. intros H.
  repeat (apply andb_prop in H as [H ?]). eauto 10.
Qed.

Lemma renderPanels_total h v :
  StockAnalysisPage.isStockAnalysis v = true ->
  exists p, StockAnalysisPage.renderPanels h v = Normal p.
Proof.
  destruct v as [| | | | |ms]; try discriminate. cbn [StockAnalysisPage.isStockAnalysis].
  intros H. repeat (apply andb_prop in H as [H ?]).
  repeat match goal with
         | Hs : StockAnalysisPage.isString _ = true |- _ =>
             apply isString_inv in Hs as [? Hs]
         | Hn : StockAnalysisPage.isNumber _ = true |- _ =>
             apply isNumber_inv in Hn as [? Hn]
         end.
  match goal with
  | Ht : StockAnalysisPage.isTechnicalIndicators _ = true |- _ =>
      apply isTechnicalIndicators_inv in Ht
        as (ti & Ht & Htrend & Hrsi & Hmacd & Hsma20 & Hsma50 & Hvol & Havg)
  end.
  repeat match goal with
         | Hs : StockAnalysisPage.isString _ = true |- _ =>
             apply isString_inv in Hs as [? Hs]
         | Hn : StockAnalysisPage.isNumber _ = true |- _ =>
             apply isNumber_inv in Hn as [? Hn]
         end.
  unfold StockAnalysisPage.renderPanels, get.
  repeat match goal with
         | Hm : Js.member _ _ = Some _ |- _ => rewrite Hm; clear Hm
         end.
  cbn.
  repeat match goal with
         | Hm : Js.member _ _ = Some _ |- _ => rewrite Hm; clear Hm
         end.
  cbn. eexists. reflexivity.
Qed.

(** * Properties of the three pages *)

Lemma stock_probes h s :
  StockFacts.valid h s = true ->
  hd_error (requests (trace (exec (StockAnalysisPage.handleAnalyze h) s)))
  = Some healthRequest.
Proof. intros Hv. stock_valid Hv. symex; reflexivity. Qed.

(** C1, as amended.  The stock handler rejects a symbol whose trimmed,
    upper-cased form is not 1 to 5 capital letters (for a symbol of
    ASCII characters: whose trimmed form is not 1 to 5 letters): it sets
    one of its two validation messages and issues no request; any other
    symbol goes on to the health probe.  The sentiment handler rejects
    the empty symbol only, and every other symbol (digits included)
    goes on to the health probe.  The portfolio handler checks nothing:
    whatever the form holds, it issues its POST. *)
Theorem validation_by_handler (h : Host) :
  (forall s,
     let w := exec (StockAnalysisPage.handleAnalyze h) s in
     (if StockAnalysisPage.symbolPattern
           (toUpperCase h (trim h (StockAnalysisPage.symbol s)))
      then hd_error (requests (trace w)) = Some healthRequest
      else requests (trace w) = []
           /\ (StockAnalysisPage.error (ui w) = "Please enter a stock symbol"
               \/ StockAnalysisPage.error (ui w)
                  = "Please enter a valid stock symbol (1-5 letters)"))
     /\ (JsString.isAscii (StockAnalysisPage.symbol s) = true ->
         StockAnalysisPage.symbolPattern
           (toUpperCase h (trim h (StockAnalysisPage.symbol s)))
         = isTicker (JsString.trimAscii (StockAnalysisPage.symbol s))))
  /\ (forall s,
        let w := exec (SentimentPage.handleAnalyze h) s in
        if JsString.falsy (SentimentPage.symbol s)
        then requests (trace w) = []
             /\ SentimentPage.error (ui w) = "Please enter a stock symbol"
        else hd_error (requests (trace w)) = Some healthRequest)
  /\ (forall s,
        requests (trace (exec (PortfolioPage.handleSubmit h) s))
        = [PortfolioPage.recommendRequest h (PortfolioPage.formData s)]).
Proof.
  split; [|split].
  - intros s w. subst w. split.
    + rewrite <- stock_valid_pattern.
      destruct (StockFacts.valid h s) eqn:Hv.
      * now apply stock_probes.
      * destruct (stock_rejected h s Hv) as (Ht & He & _).
        split; [now rewrite Ht | exact He].
    + intros Ha. rewrite <- stock_valid_pattern. now apply stock_valid_ticker.
  - intros s w. subst w.
    destruct (JsString.falsy (SentimentPage.symbol s)) eqn:Hf.
    + destruct (sentiment_rejected h s) as (Ht & He & _).
      { unfold SentimentFacts.valid. now rewrite Hf. }
      split; [now rewrite Ht | exact He].
    + apply sentiment_probes. unfold SentimentFacts.valid. now rewrite Hf.
  - apply portfolio_posts.
Qed.

Lemma validation_by_handler_witness :
  let w := exec (StockAnalysisPage.handleAnalyze (scriptedHost healthy healthy))
             (stockForm "BRK.B" JNull) in
  requests (trace w) = []
  /\ (StockAnalysisPage.error (ui w) = "Please enter a stock symbol"
      \/ StockAnalysisPage.error (ui w)
         = "Please enter a valid stock symbol (1-5 letters)").
Proof.
  exact (proj1 (proj1 (validation_by_handler (scriptedHost healthy healthy))
                  (stockForm "BRK.B" JNull))).
Defined.

(** C1 fails as stated: the sentiment handler sends the symbol A1 to the
    backend, and the portfolio handler posts the age 5; neither sets an
    error. *)
Lemma unchecked_input_reaches_network :
  let w := exec (SentimentPage.handleAnalyze (scriptedHost healthy healthy))
             (sentimentForm "A1") in
  let w' := exec (PortfolioPage.handleSubmit (scriptedHost healthy healthy))
              (portfolioForm "5") in
  (map url (requests (trace w))
     = ["http://localhost:8001/health"; "http://localhost:8001/analyze/sentiment"]
   /\ map (bodyField "symbol") (requests (trace w)) = [None; Some (JString "A1")]
   /\ SentimentPage.error (ui w) = EmptyString)
  /\ (map url (requests (trace w')) = ["http://localhost:8001/portfolio/recommend"]
      /\ map (bodyField "age") (requests (trace w')) = [Some (JNumber 5%float)]
      /\ PortfolioPage.error (ui w') = EmptyString).
Proof. vm_compute. repeat split. Qed.

(** Which symbols pass depends on the engine's [trim] and
    [toUpperCase] above U+007F: with the example engine a no-break
    space before AAPL is trimmed and AAPL is posted, and U+00DF is sent
    as SS. *)
Example no_break_space_is_trimmed :
  let h := scriptedHost healthy (respond 200 appleAnalysis) in
  let w := exec (StockAnalysisPage.handleAnalyze h)
             (stockForm (String (ascii_of_nat 160) "AAPL") JNull) in
  map (bodyField "symbol") (requests (trace w)) = [None; Some (JString "AAPL")]
  /\ StockAnalysisPage.analysis (ui w) = appleAnalysis
  /\ toasts (trace w) = ["Analysis completed successfully"].
Proof. vm_compute. repeat split. Qed.

Example sharp_s_is_sent_as_SS :
  let h := scriptedHost healthy (respond 200 appleAnalysis) in
  let w := exec (StockAnalysisPage.handleAnalyze h)
             (stockForm (String (ascii_of_nat 223) EmptyString) JNull) in
  map (bodyField "symbol") (requests (trace w)) = [None; Some (JString "SS")].
Proof. vm_compute. reflexivity. Qed.

(** C2, as amended.  A request is refused with a non-2xx status and a
    JSON object whose [detail] is a non-empty string (on the stock and
    sentiment pages after the probe was answered and validation
    passed).  The portfolio page shows exactly [detail].  The sentiment
    page shows [detail] unless it contains "Failed to fetch", which is
    replaced by the connectivity message.  The stock page does the same,
    except that a [detail] containing "No data found for symbol" is
    replaced by the message that names the cleaned symbol. *)
Theorem refused_detail_shown (h : Host) (r : Response)
    (ms : list (string * JSON)) (detail : string) :
  ok r = false ->
  json r = JsonResolves (JObject ms) ->
  Js.member "detail" ms = Some (JString detail) ->
  JsString.falsy detail = false ->
  (forall s,
     network h (PortfolioPage.recommendRequest h (PortfolioPage.formData s)) = Resolves r ->
     PortfolioPage.error (ui (exec (PortfolioPage.handleSubmit h) s)) = detail)
  /\ (forall s,
        SentimentFacts.valid s = true ->
        probed h = true ->
        network h (SentimentPage.analyzeRequest h (SentimentPage.symbol s)
                     (SentimentPage.days s)) = Resolves r ->
        SentimentPage.error (ui (exec (SentimentPage.handleAnalyze h) s))
        = if JsString.includes detail failedToFetch then unableToConnect else detail)
  /\ (forall s,
        StockFacts.valid h s = true ->
        probed h = true ->
        network h (StockAnalysisPage.analyzeRequest (StockFacts.cleanSymbol h s)
                     (StockAnalysisPage.period s)) = Resolves r ->
        StockAnalysisPage.error (ui (exec (StockAnalysisPage.handleAnalyze h) s))
        = if JsString.includes detail StockAnalysisPage.noDataFound
          then StockAnalysisPage.noDataMessage (StockFacts.cleanSymbol h s)
          else if JsString.includes detail failedToFetch
               then unableToConnect else detail).
Proof.
  intros Hok Hj Hd Hne. split; [|split]; intros s.
  - intros Hn. now apply (portfolio_detail h s r ms).
  - intros Hv Hp Hn. now apply (sentiment_detail h s r ms).
  - intros Hv Hp Hn. now apply (stock_detail h s r ms).
Qed.

Lemma refused_detail_shown_witness :
  let h := scriptedHost healthy (Resolves rateLimited) in
  (ok rateLimited = false
   /\ json rateLimited = JsonResolves (detailBody "Rate limit exceeded")
   /\ JsString.falsy "Rate limit exceeded" = false)
  /\ PortfolioPage.error (ui (exec (PortfolioPage.handleSubmit h) (portfolioForm "30")))
     = "Rate limit exceeded"
  /\ SentimentPage.error (ui (exec (SentimentPage.handleAnalyze h) (sentimentForm "AAPL")))
     = "Rate limit exceeded"
  /\ StockAnalysisPage.error
       (ui (exec (StockAnalysisPage.handleAnalyze h) (stockForm "aapl" JNull)))
     = "Rate limit exceeded".
Proof.
  pose proof (refused_detail_shown (scriptedHost healthy (Resolves rateLimited))
                rateLimited [("detail", JString "Rate limit exceeded")]
                "Rate limit exceeded" eq_refl eq_refl eq_refl eq_refl) as (Hp & Hs & Ha).
  split; [repeat split | split; [|split]].
  - exact (Hp (portfolioForm "30") eq_refl).
  - exact (Hs (sentimentForm "AAPL") eq_refl eq_refl eq_refl).
  - exact (Ha (stockForm "aapl" JNull) eq_refl eq_refl eq_refl).
Defined.

(** C2 fails as stated: on the stock page a [detail] that contains "No
    data found for symbol" is not what the user is shown. *)
Lemma stock_detail_not_shown :
  let detail := "No data found for symbol AAPL" in
  let w := exec (StockAnalysisPage.handleAnalyze
                   (scriptedHost healthy (respond 404 (detailBody detail))))
             (stockForm "AAPL" JNull) in
  StockAnalysisPage.error (ui w) = StockAnalysisPage.noDataMessage "AAPL"
  /\ StockAnalysisPage.error (ui w) <> detail.
Proof. vm_compute. split; [reflexivity | discriminate]. Qed.

(** C3.  When the health probe rejects, the stock and the sentiment
    handler (past validation) show "Backend server is not running.
    Please start the server and try again." and the probe is the only
    request of the invocation: no POST is issued. *)
Theorem probe_failure_reported (h : Host) (e : Thrown) :
  network h healthRequest = Rejects e ->
  (forall s,
     StockFacts.valid h s = true ->
     let w := exec (StockAnalysisPage.handleAnalyze h) s in
     StockAnalysisPage.error (ui w) = backendNotRunning
     /\ requests (trace w) = [healthRequest]
     /\ posts (trace w) = [])
  /\ (forall s,
        SentimentFacts.valid s = true ->
        let w := exec (SentimentPage.handleAnalyze h) s in
        SentimentPage.error (ui w) = backendNotRunning
        /\ requests (trace w) = [healthRequest]
        /\ posts (trace w) = []).
Proof.
  intros Hn. split; intros s Hv w; subst w.
  - destruct (stock_probe_fails h s e Hn Hv) as [He Hr].
    unfold posts. rewrite Hr. auto.
  - destruct (sentiment_probe_fails h s e Hn Hv) as [He Hr].
    unfold posts. rewrite Hr. auto.
Qed.

Lemma probe_failure_reported_witness :
  let h := scriptedHost unreachable unreachable in
  let w := exec (StockAnalysisPage.handleAnalyze h) (stockForm "MSFT" JNull) in
  (network h healthRequest = Rejects (ErrorObject "Failed to fetch")
   /\ StockFacts.valid h (stockForm "MSFT" JNull) = true)
  /\ StockAnalysisPage.error (ui w)
     = "Backend server is not running. Please start the server and try again."
  /\ requests (trace w) = [healthRequest]
  /\ posts (trace w) = [].
Proof.
  split; [split; reflexivity|].
  exact (proj1 (probe_failure_reported (scriptedHost unreachable unreachable)
                  (ErrorObject "Failed to fetch") eq_refl)
           (stockForm "MSFT" JNull) eq_refl).
Defined.


(** The requests of an invocation, read off the host. *)
Lemma stock_requests_exact h s :
  requests (trace (exec (StockAnalysisPage.handleAnalyze h) s)) = StockFacts.expected h s.
Proof.
  unfold StockFacts.expected, StockFacts.valid, StockFacts.cleanSymbol, probed.
  symex; reflexivity.
Qed.

Lemma sentiment_requests_exact h s :
  requests (trace (exec (SentimentPage.handleAnalyze h) s)) = SentimentFacts.expected h s.
Proof.
  unfold SentimentFacts.expected, SentimentFacts.valid, probed.
  symex; reflexivity.
Qed.

(** The error of a failure, read off the host. *)
Lemma stock_failure_pinned h s :
  StockFacts.valid h s = true ->
  StockFacts.answer h s = None ->
  let w := exec (StockAnalysisPage.handleAnalyze h) s in
  exists e,
    logged (trace w) = [e]
    /\ StockAnalysisPage.error (ui w) = StockFacts.shown e
    /\ StockAnalysisPage.analysis (ui w) = JNull
    /\ (probed h = false -> e = ErrorObject backendNotRunning)
    /\ (probed h = true ->
        forall e',
          network h (StockAnalysisPage.analyzeRequest (StockFacts.cleanSymbol h s)
                       (StockAnalysisPage.period s)) = Rejects e' ->
          e = e')
    /\ (probed h = true ->
        forall r e',
          network h (StockAnalysisPage.analyzeRequest (StockFacts.cleanSymbol h s)
                       (StockAnalysisPage.period s)) = Resolves r ->
          json r = JsonRejects e' ->
          e = e').
Proof.
  intros Hv Ha. revert Ha. stock_valid Hv.
  unfold StockFacts.answer, StockFacts.cleanSymbol, StockFacts.shown, probed, answered.
  symex; intros; try discriminate; pinned.
Qed.

Lemma sentiment_failure_pinned h s :
  SentimentFacts.valid s = true ->
  SentimentFacts.answer h s = None ->
  let w := exec (SentimentPage.handleAnalyze h) s in
  exists e,
    logged (trace w) = [e]
    /\ SentimentPage.error (ui w) = SentimentFacts.shown e
    /\ SentimentPage.analysis (ui w) = JNull
    /\ (probed h = false -> e = ErrorObject backendNotRunning)
    /\ (probed h = true ->
        forall e',
          network h (SentimentPage.analyzeRequest h (SentimentPage.symbol s)
                       (SentimentPage.days s)) = Rejects e' ->
          e = e')
    /\ (probed h = true ->
        forall r e',
          network h (SentimentPage.analyzeRequest h (SentimentPage.symbol s)
                       (SentimentPage.days s)) = Resolves r ->
          json r = JsonRejects e' ->
          e = e').
Proof.
  unfold SentimentFacts.valid. intros Hv Ha. revert Ha. apply negb_true_iff in Hv.
  unfold SentimentFacts.answer, SentimentFacts.shown, probed, answered.
  symex; intros; try discriminate; pinned.
Qed.

Lemma portfolio_failure_pinned h s :
  PortfolioFacts.answer h s = None ->
  let w := exec (PortfolioPage.handleSubmit h) s in
  exists e,
    logged (trace w) = [e]
    /\ PortfolioPage.error (ui w) = PortfolioFacts.shown e
    /\ PortfolioPage.recommendation (ui w) = JNull
    /\ (forall e',
          network h (PortfolioPage.recommendRequest h (PortfolioPage.formData s))
          = Rejects e' ->
          e = e')
    /\ (forall r e',
          network h (PortfolioPage.recommendRequest h (PortfolioPage.formData s))
          = Resolves r ->
          json r = JsonRejects e' ->
          e = e').
Proof.
  unfold PortfolioFacts.answer, PortfolioFacts.shown, answered.
  symex; intros; try discriminate; pinned.
Qed.



(** C5.  Whenever a request to /analyze/stock is issued, the [symbol]
    member of its body is the trimmed, upper-cased input, and that
    string matches the pattern of 1 to 5 capital letters; whenever a
    request to /analyze/sentiment is issued, the [symbol] member of its
    body is the upper-cased input.  And these requests are issued: once
    validation passed and the probe was answered, the POST with that
    symbol is among the requests. *)
Theorem posted_symbol (h : Host) :
  (forall s r,
     In r (requests (trace (exec (StockAnalysisPage.handleAnalyze h) s))) ->
     url r = "http://localhost:8001/analyze/stock" ->
     bodyField "symbol" r
     = Some (JString (toUpperCase h (trim h (StockAnalysisPage.symbol s))))
     /\ StockAnalysisPage.symbolPattern
          (toUpperCase h (trim h (StockAnalysisPage.symbol s))) = true)
  /\ (forall s,
        StockFacts.valid h s = true ->
        probed h = true ->
        exists r,
          In r (requests (trace (exec (StockAnalysisPage.handleAnalyze h) s)))
          /\ method r = "POST"
          /\ url r = "http://localhost:8001/analyze/stock"
          /\ bodyField "symbol" r
             = Some (JString (toUpperCase h (trim h (StockAnalysisPage.symbol s)))))
  /\ (forall s r,
        In r (requests (trace (exec (SentimentPage.handleAnalyze h) s))) ->
        url r = "http://localhost:8001/analyze/sentiment" ->
        bodyField "symbol" r
        = Some (JString (toUpperCase h (SentimentPage.symbol s))))
  /\ (forall s,
        SentimentFacts.valid s = true ->
        probed h = true ->
        exists r,
          In r (requests (trace (exec (SentimentPage.handleAnalyze h) s)))
          /\ method r = "POST"
          /\ url r = "http://localhost:8001/analyze/sentiment"
          /\ bodyField "symbol" r
             = Some (JString (toUpperCase h (SentimentPage.symbol s)))).
Proof.
  split; [|split; [|split]].
  - intros s r Hin Hurl.
    destruct (stock_requests h s) as [H|[H|[Hv H]]]; cbv zeta in H;
      rewrite H in Hin; cbn in Hin.
    + contradiction.
    + destruct Hin as [<-|[]]. discriminate Hurl.
    + destruct Hin as [<-|[<-|[]]]; [discriminate Hurl|].
      split; [reflexivity|]. stock_valid Hv. exact Hp.
  - intros s Hv Hp. rewrite stock_requests_exact.
    unfold StockFacts.expected. rewrite Hv, Hp.
    eexists. split; [right; left; reflexivity|]. repeat split.
  - intros s r Hin Hurl.
    destruct (sentiment_requests h s) as [H|[H|H]]; cbv zeta in H;
      rewrite H in Hin; cbn in Hin.
    + contradiction.
    + destruct Hin as [<-|[]]. discriminate Hurl.
    + destruct Hin as [<-|[<-|[]]]; [discriminate Hurl|]. reflexivity.
  - intros s Hv Hp. rewrite sentiment_requests_exact.
    unfold SentimentFacts.expected. rewrite Hv, Hp.
    eexists. split; [right; left; reflexivity|]. repeat split.
Qed.

Lemma posted_symbol_witness :
  let h := scriptedHost healthy (respond 200 appleAnalysis) in
  (StockFacts.valid h (stockForm " aapl " JNull) = true
   /\ SentimentFacts.valid (sentimentForm "aapl") = true
   /\ probed h = true)
  /\ (exists r,
        In r (requests (trace (exec (StockAnalysisPage.handleAnalyze h)
                                 (stockForm " aapl " JNull))))
        /\ method r = "POST"
        /\ url r = "http://localhost:8001/analyze/stock"
        /\ bodyField "symbol" r = Some (JString "AAPL"))
  /\ (exists r,
        In r (requests (trace (exec (SentimentPage.handleAnalyze h)
                                 (sentimentForm "aapl"))))
        /\ method r = "POST"
        /\ url r = "http://localhost:8001/analyze/sentiment"
        /\ bodyField "symbol" r = Some (JString "AAPL")).
Proof.
  pose proof (posted_symbol (scriptedHost healthy (respond 200 appleAnalysis)))
    as (_ & Hs & _ & Hn).
  split; [repeat split|]. split.
  - exact (Hs (stockForm " aapl " JNull) eq_refl eq_refl).
  - exact (Hn (sentimentForm "aapl") eq_refl eq_refl).
Defined.

(** C6, as amended.  Every POST the handlers issue carries the header
    Content-Type: application/json.  The only other request is the
    health probe, a GET issued without an init object: it carries no
    header at all. *)
Theorem posts_carry_content_type (h : Host) :
  (forall s r,
     In r (requests (trace (exec (StockAnalysisPage.handleAnalyze h) s))) ->
     (method r = "POST" /\ header "Content-Type" r = Some "application/json")
     \/ r = healthRequest)
  /\ (forall s r,
        In r (requests (trace (exec (SentimentPage.handleAnalyze h) s))) ->
        (method r = "POST" /\ header "Content-Type" r = Some "application/json")
        \/ r = healthRequest)
  /\ (forall s r,
        In r (requests (trace (exec (PortfolioPage.handleSubmit h) s))) ->
        method r = "POST" /\ header "Content-Type" r = Some "application/json")
  /\ method healthRequest = "GET"
  /\ headers healthRequest = [].
Proof.
  split; [|split; [|split; [|split; reflexivity]]]; intros s r Hin.
  - destruct (stock_requests h s) as [H|[H|[_ H]]]; cbv zeta in H;
      rewrite H in Hin; cbn in Hin.
    + contradiction.
    + destruct Hin as [<-|[]]. now right.
    + destruct Hin as [<-|[<-|[]]]; [now right|left; split; reflexivity].
  - destruct (sentiment_requests h s) as [H|[H|H]]; cbv zeta in H;
      rewrite H in Hin; cbn in Hin.
    + contradiction.
    + destruct Hin as [<-|[]]. now right.
    + destruct Hin as [<-|[<-|[]]]; [now right|left; split; reflexivity].
  - rewrite portfolio_posts in Hin. destruct Hin as [<-|[]]. split; reflexivity.
Qed.

Lemma posts_carry_content_type_witness :
  let h := scriptedHost healthy healthy in
  let r := PortfolioPage.recommendRequest h (PortfolioPage.formData (portfolioForm "30")) in
  In r (requests (trace (exec (PortfolioPage.handleSubmit h) (portfolioForm "30"))))
  /\ method r = "POST"
  /\ header "Content-Type" r = Some "application/json".
Proof.
  split; [left; reflexivity|].
  exact (proj1 (proj2 (proj2 (posts_carry_content_type (scriptedHost healthy healthy))))
           (portfolioForm "30") _ (or_introl eq_refl)).
Defined.

(** C6 fails as stated: the health probe of a stock analysis is issued
    and has no Content-Type header. *)
Lemma health_probe_has_no_content_type :
  let w := exec (StockAnalysisPage.handleAnalyze
                   (scriptedHost healthy (respond 200 appleAnalysis)))
             (stockForm "AAPL" JNull) in
  hd_error (requests (trace w)) = Some healthRequest
  /\ header "Content-Type" healthRequest = None.
Proof. vm_compute. split; reflexivity. Qed.

(** C7.  For a response value of the [StockAnalysis] shape (every
    documented field present with its documented type, [pe_ratio] a
    number or null) the render of the result panels raises nothing: it
    returns the panels.  In particular it does so on the state a
    successful analysis with such a body leaves. *)
Theorem render_total (h : Host) (v : JSON) :
  StockAnalysisPage.isStockAnalysis v = true ->
  (exists p, StockAnalysisPage.render h v = Normal (Some p))
  /\ (forall s,
        StockFacts.valid h s = true ->
        StockFacts.answer h s = Some v ->
        exists p,
          StockAnalysisPage.render h
            (StockAnalysisPage.analysis (ui (exec (StockAnalysisPage.handleAnalyze h) s)))
          = Normal (Some p)).
Proof.
  intros H.
  assert (Hr : exists p, StockAnalysisPage.render h v = Normal (Some p)).
  { destruct (renderPanels_total h v H) as [p Hp].
    exists p. unfold StockAnalysisPage.render. rewrite Hp.
    destruct v; try discriminate H. reflexivity. }
  split; [exact Hr|].
  intros s Hv Ha. pose proof (stock_outcome h s Hv) as Ho.
  cbv zeta in Ho. rewrite Ha in Ho. destruct Ho as [_ ->]. exact Hr.
Qed.

Lemma render_total_witness :
  StockAnalysisPage.isStockAnalysis appleAnalysis = true
  /\ exists p,
       StockAnalysisPage.render (scriptedHost healthy healthy) appleAnalysis
       = Normal (Some p).
Proof.
  split; [reflexivity|].
  exact (proj1 (render_total (scriptedHost healthy healthy) appleAnalysis eq_refl)).
Defined.

(** The render does raise outside that shape: without [current_price],
    [toFixed] is called on [undefined]. *)
Example render_without_price :
  StockAnalysisPage.render (scriptedHost healthy healthy)
    (JObject [("symbol", JString "AAPL"); ("company_name", JString "Apple Inc.")])
  = Throw (ErrorObject "TypeError").
Proof. reflexivity. Qed.

(** C8.  Every invocation that passes validation (every invocation, on
    the portfolio page) completes normally and leaves [loading] false,
    whatever the network and the backend answer. *)
Theorem loading_reset (h : Host) :
  (forall s,
     StockFacts.valid h s = true ->
     StockAnalysisPage.loading (ui (exec (StockAnalysisPage.handleAnalyze h) s)) = false
     /\ fst (invoke (StockAnalysisPage.handleAnalyze h) s) = Normal tt)
  /\ (forall s,
        SentimentFacts.valid s = true ->
        SentimentPage.loading (ui (exec (SentimentPage.handleAnalyze h) s)) = false
        /\ fst (invoke (SentimentPage.handleAnalyze h) s) = Normal tt)
  /\ (forall s,
        PortfolioPage.loading (ui (exec (PortfolioPage.handleSubmit h) s)) = false
        /\ fst (invoke (PortfolioPage.handleSubmit h) s) = Normal tt).
Proof.
  split; [|split].
  - apply stock_settles.
  - apply sentiment_settles.
  - apply portfolio_settles.
Qed.

Lemma loading_reset_witness :
  let h := scriptedHost healthy unreachable in
  StockFacts.valid h (stockForm "NVDA" JNull) = true
  /\ StockAnalysisPage.loading
       (ui (exec (StockAnalysisPage.handleAnalyze h) (stockForm "NVDA" JNull))) = false
  /\ fst (invoke (StockAnalysisPage.handleAnalyze h) (stockForm "NVDA" JNull)) = Normal tt.
Proof.
  split; [reflexivity|].
  exact (proj1 (loading_reset (scriptedHost healthy unreachable))
           (stockForm "NVDA" JNull) eq_refl).
Defined.

(** C9, as amended.  After an invocation that passes validation the
    error and the result are never both set: a successful exchange
    leaves the error empty and the result equal to the response body,
    and a failure leaves the result null and the error equal to what the
    page shows for the caught error.  An invocation rejected by
    validation leaves the result as it was. *)
Theorem error_or_result (h : Host) :
  (forall s,
     let w := exec (StockAnalysisPage.handleAnalyze h) s in
     if StockFacts.valid h s then
       (StockAnalysisPage.error (ui w) = EmptyString
        \/ StockAnalysisPage.analysis (ui w) = JNull)
       /\ match StockFacts.answer h s with
          | Some data =>
              StockAnalysisPage.error (ui w) = EmptyString
              /\ StockAnalysisPage.analysis (ui w) = data
          | None =>
              StockAnalysisPage.analysis (ui w) = JNull
              /\ exists e, caught (trace w) = Some e
                           /\ StockAnalysisPage.error (ui w) = StockFacts.shown e
          end
     else StockAnalysisPage.analysis (ui w) = StockAnalysisPage.analysis s)
  /\ (forall s,
        let w := exec (SentimentPage.handleAnalyze h) s in
        if SentimentFacts.valid s then
          (SentimentPage.error (ui w) = EmptyString
           \/ SentimentPage.analysis (ui w) = JNull)
          /\ match SentimentFacts.answer h s with
             | Some data =>
                 SentimentPage.error (ui w) = EmptyString
                 /\ SentimentPage.analysis (ui w) = data
             | None =>
                 SentimentPage.analysis (ui w) = JNull
                 /\ exists e, caught (trace w) = Some e
                              /\ SentimentPage.error (ui w) = SentimentFacts.shown e
             end
        else SentimentPage.analysis (ui w) = SentimentPage.analysis s)
  /\ (forall s,
        let w := exec (PortfolioPage.handleSubmit h) s in
        (PortfolioPage.error (ui w) = EmptyString
         \/ PortfolioPage.recommendation (ui w) = JNull)
        /\ match PortfolioFacts.answer h s with
           | Some data =>
               PortfolioPage.error (ui w) = EmptyString
               /\ PortfolioPage.recommendation (ui w) = data
           | None =>
               PortfolioPage.recommendation (ui w) = JNull
               /\ exists e, caught (trace w) = Some e
                            /\ PortfolioPage.error (ui w) = PortfolioFacts.shown e
           end).
Proof.
  split; [|split]; intros s w; subst w.
  - destruct (StockFacts.valid h s) eqn:Hv.
    + pose proof (stock_outcome h s Hv) as Ho. cbv zeta in Ho.
      split; [|exact Ho].
      destruct (StockFacts.answer h s); [left|right]; apply Ho.
    + apply (stock_rejected h s Hv).
  - destruct (SentimentFacts.valid s) eqn:Hv.
    + pose proof (sentiment_outcome h s Hv) as Ho. cbv zeta in Ho.
      split; [|exact Ho].
      destruct (SentimentFacts.answer h s); [left|right]; apply Ho.
    + apply (sentiment_rejected h s Hv).
  - pose proof (portfolio_outcome h s) as Ho. cbv zeta in Ho.
    split; [|exact Ho].
    destruct (PortfolioFacts.answer h s); [left|right]; apply Ho.
Qed.

Lemma error_or_result_witness :
  let h := scriptedHost healthy (respond 200 appleAnalysis) in
  let w := exec (StockAnalysisPage.handleAnalyze h) (stockForm "AAPL" JNull) in
  (StockFacts.valid h (stockForm "AAPL" JNull) = true
   /\ StockFacts.answer h (stockForm "AAPL" JNull) = Some appleAnalysis)
  /\ StockAnalysisPage.error (ui w) = EmptyString
  /\ StockAnalysisPage.analysis (ui w) = appleAnalysis.
Proof.
  split; [split; reflexivity|].
  exact (proj2 (proj1 (error_or_result
                         (scriptedHost healthy (respond 200 appleAnalysis)))
                  (stockForm "AAPL" JNull))).
Defined.

(** C9 fails as stated: with a result on screen, submitting an empty
    symbol on the stock page sets the error and keeps the result. *)
Lemma error_beside_stale_result :
  let w := exec (StockAnalysisPage.handleAnalyze (scriptedHost healthy healthy))
             (stockForm EmptyString appleAnalysis) in
  StockAnalysisPage.error (ui w) = "Please enter a stock symbol"
  /\ StockAnalysisPage.analysis (ui w) = appleAnalysis
  /\ Js.truthy (Some (StockAnalysisPage.analysis (ui w))) = true.
Proof. vm_compute. repeat split. Qed.

(** The [catch] block on whatever the [try] block throws. *)
Lemma stock_try_throws h c p w e w1 :
  StockAnalysisPage.requestAnalysis h c p w = (Throw e, w1) ->
  StockAnalysisPage.error
    (ui (snd (M.try_catch_finally (StockAnalysisPage.requestAnalysis h c p)
                StockAnalysisPage.reportError (StockAnalysisPage.setLoading false) w)))
  = StockFacts.shown e.
Proof.
  intros H. unfold M.try_catch_finally. rewrite H.
  unfold StockFacts.shown, StockAnalysisPage.reportError.
  unfold_handlers. cbn.
  destruct (JsString.includes _ failedToFetch); reflexivity.
Qed.

Lemma sentiment_try_throws h sym d w e w1 :
  SentimentPage.requestAnalysis h sym d w = (Throw e, w1) ->
  SentimentPage.error
    (ui (snd (M.try_catch_finally (SentimentPage.requestAnalysis h sym d)
                SentimentPage.reportError (SentimentPage.setLoading false) w)))
  = SentimentFacts.shown e.
Proof.
  intros H. unfold M.try_catch_finally. rewrite H.
  unfold SentimentFacts.shown, SentimentPage.reportError.
  unfold_handlers. cbn.
  destruct (JsString.includes _ failedToFetch); reflexivity.
Qed.

Lemma portfolio_try_throws h f w e w1 :
  PortfolioPage.requestRecommendation h f w = (Throw e, w1) ->
  PortfolioPage.error
    (ui (snd (M.try_catch_finally (PortfolioPage.requestRecommendation h f)
                PortfolioPage.reportError (PortfolioPage.setLoading false) w)))
  = PortfolioFacts.shown e.
Proof.
  intros H. unfold M.try_catch_finally. rewrite H.
  unfold PortfolioFacts.shown, PortfolioPage.reportError.
  unfold_handlers. reflexivity.
Qed.

(** C10.  On the stock and the sentiment page, when the [try] block
    throws an error whose message contains "Failed to fetch", the error
    shown is "Unable to connect to the backend server. Please ensure it
    is running on port 8001." instead of the message, and otherwise it
    is the message; so it is, in particular, when the POST rejects with
    such an error behind an answered probe.  On the portfolio page the
    message itself is shown, whatever it contains. *)
Theorem failed_to_fetch_replaced (h : Host) (m : string) :
  (forall c p w w1,
     StockAnalysisPage.requestAnalysis h c p w = (Throw (ErrorObject m), w1) ->
     StockAnalysisPage.error
       (ui (snd (M.try_catch_finally (StockAnalysisPage.requestAnalysis h c p)
                   StockAnalysisPage.reportError (StockAnalysisPage.setLoading false) w)))
     = if JsString.includes m failedToFetch then unableToConnect else m)
  /\ (forall s,
        StockFacts.valid h s = true ->
        probed h = true ->
        network h (StockAnalysisPage.analyzeRequest (StockFacts.cleanSymbol h s)
                     (StockAnalysisPage.period s)) = Rejects (ErrorObject m) ->
        StockAnalysisPage.error (ui (exec (StockAnalysisPage.handleAnalyze h) s))
        = if JsString.includes m failedToFetch then unableToConnect else m)
  /\ (forall sym d w w1,
        SentimentPage.requestAnalysis h sym d w = (Throw (ErrorObject m), w1) ->
        SentimentPage.error
          (ui (snd (M.try_catch_finally (SentimentPage.requestAnalysis h sym d)
                      SentimentPage.reportError (SentimentPage.setLoading false) w)))
        = if JsString.includes m failedToFetch then unableToConnect else m)
  /\ (forall s,
        SentimentFacts.valid s = true ->
        probed h = true ->
        network h (SentimentPage.analyzeRequest h (SentimentPage.symbol s)
                     (SentimentPage.days s)) = Rejects (ErrorObject m) ->
        SentimentPage.error (ui (exec (SentimentPage.handleAnalyze h) s))
        = if JsString.includes m failedToFetch then unableToConnect else m)
  /\ (forall f w w1,
        PortfolioPage.requestRecommendation h f w = (Throw (ErrorObject m), w1) ->
        PortfolioPage.error
          (ui (snd (M.try_catch_finally (PortfolioPage.requestRecommendation h f)
                      PortfolioPage.reportError (PortfolioPage.setLoading false) w)))
        = m)
  /\ (forall s,
        network h (PortfolioPage.recommendRequest h (PortfolioPage.formData s))
        = Rejects (ErrorObject m) ->
        PortfolioPage.error (ui (exec (PortfolioPage.handleSubmit h) s)) = m).
Proof.
  repeat split.
  - intros c p w w1 H. now rewrite (stock_try_throws h c p w _ w1 H).
  - intros s Hv Hp Hn.
    assert (Ha : StockFacts.answer h s = None).
    { unfold StockFacts.answer. now rewrite Hp, Hn. }
    destruct (stock_failure_pinned h s Hv Ha) as (e & _ & He & _ & _ & Hr & _).
    cbv zeta in He. rewrite He, (Hr Hp _ Hn). reflexivity.
  - intros sym d w w1 H. now rewrite (sentiment_try_throws h sym d w _ w1 H).
  - intros s Hv Hp Hn.
    assert (Ha : SentimentFacts.answer h s = None).
    { unfold SentimentFacts.answer. now rewrite Hp, Hn. }
    destruct (sentiment_failure_pinned h s Hv Ha) as (e & _ & He & _ & _ & Hr & _).
    cbv zeta in He. rewrite He, (Hr Hp _ Hn). reflexivity.
  - intros f w w1 H. now rewrite (portfolio_try_throws h f w _ w1 H).
  - intros s Hn.
    assert (Ha : PortfolioFacts.answer h s = None).
    { unfold PortfolioFacts.answer. now rewrite Hn. }
    destruct (portfolio_failure_pinned h s Ha) as (e & _ & He & _ & Hr & _).
    cbv zeta in He. rewrite He, (Hr _ Hn). reflexivity.
Qed.

Lemma failed_to_fetch_replaced_witness :
  let h := scriptedHost healthy unreachable in
  (JsString.includes "Failed to fetch" failedToFetch = true
   /\ network h (StockAnalysisPage.analyzeRequest "AMZN" "1y")
      = Rejects (ErrorObject "Failed to fetch")
   /\ network h (SentimentPage.analyzeRequest h "AMZN" "7")
      = Rejects (ErrorObject "Failed to fetch"))
  /\ StockAnalysisPage.error
       (ui (exec (StockAnalysisPage.handleAnalyze h) (stockForm "AMZN" JNull)))
     = "Unable to connect to the backend server. Please ensure it is running on port 8001."
  /\ SentimentPage.error
       (ui (exec (SentimentPage.handleAnalyze h) (sentimentForm "AMZN")))
     = "Unable to connect to the backend server. Please ensure it is running on port 8001."
  /\ PortfolioPage.error (ui (exec (PortfolioPage.handleSubmit h) (portfolioForm "30")))
     = "Failed to fetch".
Proof.
  pose proof (failed_to_fetch_replaced (scriptedHost healthy unreachable)
                "Failed to fetch") as (_ & Ha & _ & Hs & _ & Hp).
  split; [repeat split|]. split; [|split].
  - exact (Ha (stockForm "AMZN" JNull) eq_refl eq_refl eq_refl).
  - exact (Hs (sentimentForm "AMZN") eq_refl eq_refl eq_refl).
  - exact (Hp (portfolioForm "30") eq_refl).
Defined.

(** * Further facts about strings *)

Section MoreStrings.
Import JsString.

Lemma upperChar_idem c : upperCharAscii (upperCharAscii c) = upperCharAscii c.
Proof. destruct c as [[] [] [] [] [] [] [] []]; reflexivity. Qed.

Lemma toUpperCase_cons c t :
  toUpperCaseAscii (String c t) = String (upperCharAscii c) (toUpperCaseAscii t).
Proof. reflexivity. Qed.

Lemma toUpperCase_idem t : toUpperCaseAscii (toUpperCaseAscii t) = toUpperCaseAscii t.
Proof.
  induction t as [|c t IH]; [reflexivity|].
  now rewrite !toUpperCase_cons, upperChar_idem, IH.
Qed.

Lemma letter_not_space c : isLetter c = true -> isWhiteSpaceAscii c = false.
Proof. destruct c as [[] [] [] [] [] [] [] []]; intros H; try reflexivity; discriminate H. Qed.

Lemma trimEnd_letters t : all isLetter t = true -> trimEndAscii t = t.
Proof.
  induction t as [|c t IH]; [reflexivity|].
  cbn [all trimEndAscii]. intros H. apply andb_prop in H as [Hc Ht].
  rewrite (IH Ht). destruct t; [|reflexivity].
  now rewrite (letter_not_space c Hc).
Qed.

Lemma trim_letters t : all isLetter t = true -> trimAscii t = t.
Proof.
  intros H. unfold trimAscii.
  assert (Hs : trimStartAscii t = t).
  { destruct t as [|c t]; [reflexivity|]. cbn [trimStartAscii].
    cbn [all] in H. apply andb_prop in H as [Hc _].
    now rewrite (letter_not_space c Hc). }
  rewrite Hs. now apply trimEnd_letters.
Qed.

Lemma letters_toUpperCase t : all isLetter (toUpperCaseAscii t) = all isLetter t.
Proof.
  induction t as [|c t IH]; [reflexivity|].
  rewrite toUpperCase_cons. cbn [all]. rewrite IH. f_equal.
  destruct c as [[] [] [] [] [] [] [] []]; reflexivity.
Qed.

Lemma upper_of_letters t :
  all isLetter (toUpperCaseAscii t) = true -> all isUpper (toUpperCaseAscii t) = true.
Proof. rewrite letters_toUpperCase, all_upper_toUpperCase. auto. Qed.

Lemma letters_ascii t : all isLetter t = true -> isAscii t = true.
Proof.
  induction t as [|c t IH]; [reflexivity|].
  cbn [all isAscii]. intros H. apply andb_prop in H as [Hc Ht].
  rewrite (IH Ht), andb_true_r.
  destruct c as [[] [] [] [] [] [] [] []]; try reflexivity; discriminate Hc.
Qed.

End MoreStrings.

(** * Further properties of the three pages *)

(** X1.  "Try Again" only clears the panels.  Whatever a submission
    did, [handleRetry] after it leaves the error empty and the result
    null, keeps the symbol and the period (or days) of the form, and
    issues no request of its own: the requests are those of the
    submission. *)
Theorem retry_clears_without_resubmitting (h : Host) :
  (forall s,
     let w := exec (StockAnalysisPage.handleAnalyze h ;; StockAnalysisPage.handleRetry) s in
     StockAnalysisPage.error (ui w) = EmptyString
     /\ StockAnalysisPage.analysis (ui w) = JNull
     /\ StockAnalysisPage.symbol (ui w) = StockAnalysisPage.symbol s
     /\ StockAnalysisPage.period (ui w) = StockAnalysisPage.period s
     /\ requests (trace w) = requests (trace (exec (StockAnalysisPage.handleAnalyze h) s)))
  /\ (forall s,
        let w := exec (SentimentPage.handleAnalyze h ;; SentimentPage.handleRetry) s in
        SentimentPage.error (ui w) = EmptyString
        /\ SentimentPage.analysis (ui w) = JNull
        /\ SentimentPage.symbol (ui w) = SentimentPage.symbol s
        /\ SentimentPage.days (ui w) = SentimentPage.days s
        /\ requests (trace w) = requests (trace (exec (SentimentPage.handleAnalyze h) s))).
Proof.
  split; intros s w; subst w; unfold_controls; symex; repeat split.
Qed.



(** X3.  A symbol the stock form's input accepts (non-empty, at most
    five characters, letters only) is never rejected by the handler: it
    passes both guards, is sent as its upper-case form, and the
    invocation goes on to the health probe. *)
Theorem stock_input_constraints_suffice (h : Host) (s : StockAnalysisPage.State) :
  StockAnalysisPage.symbolInputAccepts (StockAnalysisPage.symbol s) = true ->
  StockFacts.valid h s = true
  /\ StockFacts.cleanSymbol h s
     = JsString.toUpperCaseAscii (StockAnalysisPage.symbol s)
  /\ hd_error (requests (trace (exec (StockAnalysisPage.handleAnalyze h) s)))
     = Some healthRequest.
Proof.
  unfold StockAnalysisPage.symbolInputAccepts. intros H.
  apply andb_prop in H as [H Hl]. apply andb_prop in H as [Hne Hlen].
  change (JsString.all isLetter (StockAnalysisPage.symbol s) = true) in Hl.
  pose proof (letters_ascii _ Hl) as Hascii.
  assert (Hv : StockFacts.valid h s = true).
  { rewrite (stock_valid_ticker h s Hascii), (trim_letters _ Hl). unfold isTicker.
    rewrite Hl, Hlen, andb_true_r, andb_true_r.
    destruct (StockAnalysisPage.symbol s); [discriminate Hne | reflexivity]. }
  split; [exact Hv | split].
  - unfold StockFacts.cleanSymbol.
    now rewrite (cleaned_ascii h _ Hascii), (trim_letters _ Hl).
  - now apply stock_probes.
Qed.

Lemma stock_input_constraints_suffice_witness :
  let h := scriptedHost healthy healthy in
  let s := typedStock h "msft" (stockForm EmptyString JNull) in
  StockAnalysisPage.symbolInputAccepts (StockAnalysisPage.symbol s) = true
  /\ StockFacts.valid h s = true
  /\ StockFacts.cleanSymbol h s
     = JsString.toUpperCaseAscii (StockAnalysisPage.symbol s)
  /\ hd_error (requests (trace (exec (StockAnalysisPage.handleAnalyze h) s)))
     = Some healthRequest.
Proof.
  split; [reflexivity|].
  exact (stock_input_constraints_suffice (scriptedHost healthy healthy)
           (typedStock (scriptedHost healthy healthy) "msft"
              (stockForm EmptyString JNull)) eq_refl).
Defined.

(** X4.  On the sentiment page a symbol typed into the input (in
    ASCII characters) is stored in upper case, so the handler's own
    [toUpperCase] changes nothing: when the input accepts the stored
    symbol (non-empty, letters only), every request to
    /analyze/sentiment carries exactly the stored symbol, which
    consists of capital letters. *)
Theorem sentiment_typed_symbol_posted (h : Host) (value : string)
    (s0 : SentimentPage.State) (r : Request) :
  let s := typedSentiment h value s0 in
  JsString.isAscii value = true ->
  SentimentPage.symbolInputAccepts (SentimentPage.symbol s) = true ->
  In r (requests (trace (exec (SentimentPage.handleAnalyze h) s))) ->
  url r = "http://localhost:8001/analyze/sentiment" ->
  bodyField "symbol" r = Some (JString (SentimentPage.symbol s))
  /\ JsString.all JsString.isUpper (SentimentPage.symbol s) = true
  /\ SentimentPage.symbol s <> EmptyString.
Proof.
  intros s Hv Ha Hin Hurl.
  assert (Hs : SentimentPage.symbol s = JsString.toUpperCaseAscii value).
  { subst s. unfold typedSentiment. cbn. now apply toUpperCase_on_ascii. }
  clearbody s.
  unfold SentimentPage.symbolInputAccepts in Ha.
  apply andb_prop in Ha as [Hne Hl].
  change (JsString.all isLetter (SentimentPage.symbol s) = true) in Hl.
  split; [|split].
  - destruct (sentiment_requests h s) as [Hr|[Hr|Hr]]; cbv zeta in Hr;
      rewrite Hr in Hin; cbn in Hin.
    + contradiction.
    + destruct Hin as [<-|[]]. discriminate Hurl.
    + destruct Hin as [<-|[<-|[]]]; [discriminate Hurl|].
      unfold bodyField, SentimentPage.analyzeRequest. cbn. rewrite Hs.
      rewrite (toUpperCase_on_ascii h _ (isAscii_toUpperCaseAscii _ Hv)).
      now rewrite toUpperCase_idem.
  - rewrite Hs in *. now apply upper_of_letters.
  - intros E. rewrite E in Hne. discriminate Hne.
Qed.

Lemma sentiment_typed_symbol_posted_witness :
  let h := scriptedHost healthy (respond 200 appleSentiment) in
  let s := typedSentiment h "aapl" (sentimentForm EmptyString) in
  let r := SentimentPage.analyzeRequest h "AAPL" "7" in
  (JsString.isAscii "aapl" = true
   /\ SentimentPage.symbolInputAccepts (SentimentPage.symbol s) = true
   /\ In r (requests (trace (exec (SentimentPage.handleAnalyze h) s))))
  /\ bodyField "symbol" r = Some (JString "AAPL")
  /\ JsString.all JsString.isUpper "AAPL" = true
  /\ "AAPL" <> EmptyString.
Proof.
  split; [split; [reflexivity | split; [reflexivity | right; left; reflexivity]]|].
  exact (sentiment_typed_symbol_posted
           (scriptedHost healthy (respond 200 appleSentiment)) "aapl"
           (sentimentForm EmptyString)
           (SentimentPage.analyzeRequest
              (scriptedHost healthy (respond 200 appleSentiment)) "AAPL" "7")
           eq_refl eq_refl (or_intror (or_introl eq_refl)) eq_refl).
Defined.

(** X5.  Every quick pick of the stock page is a symbol the input
    accepts and the handler sends unchanged: after a click on one of the
    five buttons the state passes validation and the cleaned symbol is
    the button's symbol. *)
Theorem common_stocks_are_valid (h : Host) (stock : string * string)
    (s : StockAnalysisPage.State) :
  In stock StockAnalysisPage.commonStocks ->
  let s' := ui (exec (StockAnalysisPage.onStockClick stock) s) in
  StockAnalysisPage.symbolInputAccepts (StockAnalysisPage.symbol s') = true
  /\ StockFacts.valid h s' = true
  /\ StockFacts.cleanSymbol h s' = fst stock.
Proof.
  intros Hin s'. subst s'. cbn in Hin.
  repeat (destruct Hin as [<-|Hin]; [repeat split|]).
  contradiction.
Qed.

Lemma common_stocks_are_valid_witness :
  let h := scriptedHost healthy healthy in
  let s' := ui (exec (StockAnalysisPage.onStockClick ("GOOGL", "Google"))
                  (stockForm "x1" JNull)) in
  In ("GOOGL", "Google") StockAnalysisPage.commonStocks
  /\ StockAnalysisPage.symbolInputAccepts (StockAnalysisPage.symbol s') = true
  /\ StockFacts.valid h s' = true
  /\ StockFacts.cleanSymbol h s' = "GOOGL".
Proof.
  split; [right; right; left; reflexivity|].
  exact (common_stocks_are_valid (scriptedHost healthy healthy)
           ("GOOGL", "Google") (stockForm "x1" JNull)
           (or_intror (or_intror (or_introl eq_refl)))).
Defined.

(** X6.  A submission that passes validation starts from a clean slate:
    its trace and the state it leaves depend on the form fields and the
    host only, not on the loading flag, the error or the result that
    were there before.  In particular the handlers never test
    [loading]. *)
Theorem stale_state_ignored (h : Host) :
  (forall s1 s2,
     StockAnalysisPage.symbol s1 = StockAnalysisPage.symbol s2 ->
     StockAnalysisPage.period s1 = StockAnalysisPage.period s2 ->
     StockFacts.valid h s1 = true ->
     exec (StockAnalysisPage.handleAnalyze h) s1
     = exec (StockAnalysisPage.handleAnalyze h) s2)
  /\ (forall s1 s2,
        SentimentPage.symbol s1 = SentimentPage.symbol s2 ->
        SentimentPage.days s1 = SentimentPage.days s2 ->
        SentimentFacts.valid s1 = true ->
        exec (SentimentPage.handleAnalyze h) s1
        = exec (SentimentPage.handleAnalyze h) s2)
  /\ (forall s1 s2,
        PortfolioPage.formData s1 = PortfolioPage.formData s2 ->
        exec (PortfolioPage.handleSubmit h) s1
        = exec (PortfolioPage.handleSubmit h) s2).
Proof.
  split; [|split].
  - intros [sym per l1 a1 e1] [sym2 per2 l2 a2 e2]; cbn. intros <- <- Hv.
    stock_valid Hv. cbn in Hf, Hp. symex; reflexivity.
  - intros [sym d l1 a1 e1] [sym2 d2 l2 a2 e2]; cbn. intros <- <- Hv.
    unfold SentimentFacts.valid in Hv. cbn in Hv. apply negb_true_iff in Hv.
    symex; reflexivity.
  - intros [f l1 r1 e1] [f2 l2 r2 e2]; cbn. intros <-.
    symex; reflexivity.
Qed.

Lemma stale_state_ignored_witness :
  let h := scriptedHost healthy (respond 200 appleAnalysis) in
  let busy :=
    {| StockAnalysisPage.symbol := "AAPL";
       StockAnalysisPage.period := "1y";
       StockAnalysisPage.loading := true;
       StockAnalysisPage.analysis := appleAnalysis;
       StockAnalysisPage.error := "Failed to analyze stock" |} in
  StockFacts.valid h busy = true
  /\ exec (StockAnalysisPage.handleAnalyze h) busy
     = exec (StockAnalysisPage.handleAnalyze h) (stockForm "AAPL" JNull).
Proof.
  split; [reflexivity|].
  exact (proj1 (stale_state_ignored (scriptedHost healthy (respond 200 appleAnalysis)))
           _ (stockForm "AAPL" JNull) eq_refl eq_refl eq_refl).
Defined.


(** ** The other panels *)

Lemma chips_of_strings h items :
  forallb SentimentPage.isStringItem items = true ->
  SentimentPage.chips h items
  = Normal (map (fun s => [s])
              (flat_map (fun i => match i with JString s => [s] | _ => [] end) items)).
Proof.
  induction items as [|i items IH]; [reflexivity|].
  cbn [forallb]. intros H. apply andb_prop in H as [Hi Hr].
  destruct i; try discriminate Hi.
  cbn. rewrite (IH Hr). reflexivity.
Qed.

(** X8.  For a response of the [SentimentAnalysis] shape, on an engine
    that prints numbers, the sentiment panels render without raising;
    the "News Sources" panel is left out when [sources] is empty and
    otherwise shows one chip per source, in the order of the
    response. *)
Theorem sentiment_render_total (h : Host) (v : JSON) :
  printsNumbers h ->
  SentimentPage.isSentimentAnalysis v = true ->
  exists p,
    SentimentPage.render h v = Normal (Some p)
    /\ SentimentPage.newsSources p
       = match SentimentPage.sourcesOf v with
         | [] => None
         | sources => Some (map (fun s => [s]) sources)
         end.
Proof.
  intros Hn H. destruct v as [| | | | |ms]; try discriminate H.
  cbn [SentimentPage.isSentimentAnalysis] in H.
  destruct (Js.member "symbol" ms) as [[| | |sym| |]|] eqn:E1; try discriminate H.
  destruct (Js.member "company_name" ms) as [[| | |name| |]|] eqn:E2; try discriminate H.
  destruct (Js.member "sentiment_analysis" ms) as [[| | |txt| |]|] eqn:E3;
    try discriminate H.
  destruct (Js.member "news_count" ms) as [[| |n1| | |]|] eqn:E4; try discriminate H.
  destruct (Js.member "analyzed_articles" ms) as [[| |n2| | |]|] eqn:E5;
    try discriminate H.
  destruct (Js.member "period_days" ms) as [[| |n3| | |]|] eqn:E6; try discriminate H.
  destruct (Js.member "sources" ms) as [[| | | |items|]|] eqn:E7; try discriminate H.
  destruct (Hn n1) as [p1 P1], (Hn n2) as [p2 P2], (Hn n3) as [p3 P3].
  unfold SentimentPage.render, SentimentPage.renderPanels, SentimentPage.sourcesOf, get.
  cbn. rewrite E1, E2, E3, E4, E5, E6, E7. cbn.
  destruct items as [|i items].
  - cbn. rewrite P1, P2, P3. cbn. eexists. split; reflexivity.
  - cbn [forallb] in H. apply andb_prop in H as [Hi Hr].
    destruct i; try discriminate Hi.
    cbn. rewrite P1, P2, P3. cbn.
    rewrite (chips_of_strings h items Hr). cbn.
    eexists. split; reflexivity.
Qed.

Lemma sentiment_render_total_witness :
  let h := scriptedHost healthy healthy in
  (printsNumbers h /\ SentimentPage.isSentimentAnalysis appleSentiment = true)
  /\ exists p,
       SentimentPage.render h appleSentiment = Normal (Some p)
       /\ SentimentPage.newsSources p = Some [["Reuters"]; ["Bloomberg"]].
Proof.
  assert (Hn : printsNumbers (scriptedHost healthy healthy)).
  { intros x. eexists. reflexivity. }
  split; [split; [exact Hn | reflexivity]|].
  exact (sentiment_render_total (scriptedHost healthy healthy) appleSentiment Hn eq_refl).
Defined.

(** X9.  For a response of the [PortfolioRecommendation] shape, on an
    engine that prints numbers, the recommendation panel renders
    without raising. *)
Theorem portfolio_render_total (h : Host) (v : JSON) :
  printsNumbers h ->
  PortfolioPage.isPortfolioRecommendation v = true ->
  exists p, PortfolioPage.render h v = Normal (Some p).
Proof.
  intros Hn H. destruct v as [| | | | |ms]; try discriminate H.
  cbn [PortfolioPage.isPortfolioRecommendation] in H.
  apply andb_prop in H as [Hp Hr].
  destruct (Js.member "profile" ms) as [[| | | | |prof]|] eqn:E1; try discriminate Hp.
  destruct (Js.member "recommendation" ms) as [[| | |txt| |]|] eqn:E2; try discriminate Hr.
  cbn [PortfolioPage.isProfile] in Hp.
  destruct (Js.member "age" prof) as [[| |n1| | |]|] eqn:E3; try discriminate Hp.
  destruct (Js.member "income" prof) as [[| |n2| | |]|] eqn:E4; try discriminate Hp.
  destruct (Js.member "risk_appetite" prof) as [[| | |risk| |]|] eqn:E5;
    try discriminate Hp.
  destruct (Js.member "investment_period" prof) as [[| |n3| | |]|] eqn:E6;
    try discriminate Hp.
  destruct (Hn n1) as [p1 P1], (Hn n3) as [p3 P3].
  unfold PortfolioPage.render, PortfolioPage.renderPanel, get.
  cbn. rewrite E1, E2. cbn. rewrite E3, E4, E5, E6. cbn. rewrite P1, P3. cbn.
  eexists. reflexivity.
Qed.

Lemma portfolio_render_total_witness :
  let h := scriptedHost healthy healthy in
  (printsNumbers h /\ PortfolioPage.isPortfolioRecommendation balancedRecommendation = true)
  /\ exists p, PortfolioPage.render h balancedRecommendation = Normal (Some p).
Proof.
  assert (Hn : printsNumbers (scriptedHost healthy healthy)).
  { intros x. eexists. reflexivity. }
  split; [split; [exact Hn | reflexivity]|].
  exact (portfolio_render_total (scriptedHost healthy healthy)
           balancedRecommendation Hn eq_refl).
Defined.

(** X10.  A 2xx answer that is a JSON object but lacks the member the
    panels need is taken as a success, and then the render raises: the
    handler leaves the error empty and stores the body, and the render
    of that state raises the engine's error for reading a property of
    [undefined] ([toFixed] without [current_price] on the stock page,
    [length] without [sources] on the sentiment page, [age] without
    [profile] on the portfolio page). *)
Theorem success_without_member_breaks_render (h : Host) (ms : list (string * JSON)) :
  (forall s,
     StockFacts.valid h s = true ->
     StockFacts.answer h s = Some (JObject ms) ->
     Js.member "current_price" ms = None ->
     let w := exec (StockAnalysisPage.handleAnalyze h) s in
     StockAnalysisPage.error (ui w) = EmptyString
     /\ StockAnalysisPage.render h (StockAnalysisPage.analysis (ui w))
        = Throw (ErrorObject (hostErrorMessage h (ReadPropertyOfNullish "toFixed"))))
  /\ (forall s,
        SentimentFacts.valid s = true ->
        SentimentFacts.answer h s = Some (JObject ms) ->
        Js.member "sources" ms = None ->
        let w := exec (SentimentPage.handleAnalyze h) s in
        SentimentPage.error (ui w) = EmptyString
        /\ SentimentPage.render h (SentimentPage.analysis (ui w))
           = Throw (ErrorObject (hostErrorMessage h (ReadPropertyOfNullish "length"))))
  /\ (forall s,
        PortfolioFacts.answer h s = Some (JObject ms) ->
        Js.member "profile" ms = None ->
        let w := exec (PortfolioPage.handleSubmit h) s in
        PortfolioPage.error (ui w) = EmptyString
        /\ PortfolioPage.render h (PortfolioPage.recommendation (ui w))
           = Throw (ErrorObject (hostErrorMessage h (ReadPropertyOfNullish "age")))).
Proof.
  split; [|split].
  - intros s Hv Ha Hm w. subst w.
    pose proof (stock_outcome h s Hv) as Ho. cbv zeta in Ho. rewrite Ha in Ho.
    destruct Ho as [-> ->]. split; [reflexivity|].
    unfold StockAnalysisPage.render, StockAnalysisPage.renderPanels, get.
    cbn. rewrite Hm. reflexivity.
  - intros s Hv Ha Hm w. subst w.
    pose proof (sentiment_outcome h s Hv) as Ho. cbv zeta in Ho. rewrite Ha in Ho.
    destruct Ho as [-> ->]. split; [reflexivity|].
    unfold SentimentPage.render, SentimentPage.renderPanels, get.
    cbn. rewrite Hm. reflexivity.
  - intros s Ha Hm w. subst w.
    pose proof (portfolio_outcome h s) as Ho. cbv zeta in Ho. rewrite Ha in Ho.
    destruct Ho as [-> ->]. split; [reflexivity|].
    unfold PortfolioPage.render, PortfolioPage.renderPanel, get.
    cbn. rewrite Hm. reflexivity.
Qed.

Lemma success_without_member_breaks_render_witness :
  let h := scriptedHost healthy (respond 200 (JObject [("symbol", JString "AAPL")])) in
  let s := sentimentForm "AAPL" in
  let w := exec (SentimentPage.handleAnalyze h) s in
  (SentimentFacts.valid s = true
   /\ SentimentFacts.answer h s = Some (JObject [("symbol", JString "AAPL")]))
  /\ SentimentPage.error (ui w) = EmptyString
  /\ SentimentPage.render h (SentimentPage.analysis (ui w))
     = Throw (ErrorObject "TypeError").
Proof.
  split; [split; reflexivity|].
  exact (proj1 (proj2 (success_without_member_breaks_render
                         (scriptedHost healthy
                            (respond 200 (JObject [("symbol", JString "AAPL")])))
                         [("symbol", JString "AAPL")]))
           (sentimentForm "AAPL") eq_refl eq_refl eq_refl).
Defined.

(** X11.  The stock panels read nine members of the response and no
    other: two responses that agree on them render alike (raising
    included).  [pe_ratio] and [fifty_two_week] are not among them, so
    they are never displayed. *)
Theorem stock_render_reads_nine_members (h : Host) (ms ms' : list (string * JSON)) :
  (forall k, In k stockPanelKeys -> Js.member k ms = Js.member k ms') ->
  StockAnalysisPage.render h (JObject ms) = StockAnalysisPage.render h (JObject ms').
Proof.
  intros H.
  unfold StockAnalysisPage.render, StockAnalysisPage.renderPanels, get.
  cbn.
  rewrite !(H _) by (cbn; tauto).
  reflexivity.
Qed.

Lemma stock_render_reads_nine_members_witness :
  let h := scriptedHost healthy healthy in
  let bare :=
    match appleAnalysis with
    | JObject ms =>
        filter (fun m => negb (String.eqb (fst m) "pe_ratio"
                               || String.eqb (fst m) "fifty_two_week")) ms
    | _ => []
    end in
  (Js.member "pe_ratio" bare = None /\ Js.member "fifty_two_week" bare = None)
  /\ StockAnalysisPage.render h (JObject bare) = StockAnalysisPage.render h appleAnalysis.
Proof.
  split; [split; reflexivity|].
  apply (stock_render_reads_nine_members (scriptedHost healthy healthy)).
  intros k Hk. cbn in Hk.
  repeat (destruct Hk as [<-|Hk]; [reflexivity|]). contradiction.
Defined.

(** ** What an invocation reports *)

(** X12.  The stock page toasts "Analysis completed successfully" once,
    and only when the submission passed validation and the exchange
    ended in a 2xx JSON answer; on every failure there is no toast.
    The sentiment and the portfolio page never toast. *)
Theorem toast_only_on_success (h : Host) :
  (forall s,
     toasts (trace (exec (StockAnalysisPage.handleAnalyze h) s))
     = if StockFacts.valid h s
       then match StockFacts.answer h s with
            | Some _ => ["Analysis completed successfully"]
            | None => []
            end
       else [])
  /\ (forall s, toasts (trace (exec (SentimentPage.handleAnalyze h) s)) = [])
  /\ (forall s, toasts (trace (exec (PortfolioPage.handleSubmit h) s)) = []).
Proof.
  split; [|split]; intros s.
  - unfold StockFacts.valid, StockFacts.answer, StockFacts.cleanSymbol, probed, answered.
    symex; reflexivity.
  - symex; reflexivity.
  - symex; reflexivity.
Qed.

(** X13.  [console.error] is called exactly once on a failure behind
    validation, with the caught error, and not at all on a success or
    when validation rejects the input: a validation message is shown
    without being logged. *)
Theorem failures_logged_once (h : Host) :
  (forall s,
     let t := trace (exec (StockAnalysisPage.handleAnalyze h) s) in
     if StockFacts.valid h s
     then match StockFacts.answer h s with
          | Some _ => logged t = []
          | None => exists e, logged t = [e]
                              /\ StockAnalysisPage.error
                                   (ui (exec (StockAnalysisPage.handleAnalyze h) s))
                                 = StockFacts.shown e
          end
     else logged t = [])
  /\ (forall s,
        let t := trace (exec (SentimentPage.handleAnalyze h) s) in
        if SentimentFacts.valid s
        then match SentimentFacts.answer h s with
             | Some _ => logged t = []
             | None => exists e, logged t = [e]
                                 /\ SentimentPage.error
                                      (ui (exec (SentimentPage.handleAnalyze h) s))
                                    = SentimentFacts.shown e
             end
        else logged t = [])
  /\ (forall s,
        let t := trace (exec (PortfolioPage.handleSubmit h) s) in
        match PortfolioFacts.answer h s with
        | Some _ => logged t = []
        | None => exists e, logged t = [e]
                            /\ PortfolioPage.error
                                 (ui (exec (PortfolioPage.handleSubmit h) s))
                               = PortfolioFacts.shown e
        end).
Proof.
  split; [|split]; intros s t; subst t.
  - unfold StockFacts.valid, StockFacts.answer, StockFacts.cleanSymbol,
      StockFacts.shown, probed, answered.
    symex; try reflexivity;
      (eexists; split; [reflexivity | cbn; use_includes; reflexivity]).
  - unfold SentimentFacts.valid, SentimentFacts.answer, SentimentFacts.shown,
      probed, answered.
    symex; try reflexivity;
      (eexists; split; [reflexivity | cbn; use_includes; reflexivity]).
  - unfold PortfolioFacts.answer, PortfolioFacts.shown, answered.
    symex; try reflexivity;
      (eexists; split; [reflexivity | cbn; use_includes; reflexivity]).
Qed.

(** X14.  Every invocation first cancels the form's default submit.
    When it issues a request, it has by then set [loading], cleared the
    error and cleared the result, in that order, and nothing else: the
    first request comes right after these four events. *)
Theorem requests_follow_the_reset (h : Host) :
  (forall s,
     let t := trace (exec (StockAnalysisPage.handleAnalyze h) s) in
     hd_error t = Some EPreventDefault
     /\ (requests t <> [] -> exists r rest, t = (prelude ++ EFetch r :: rest)%list))
  /\ (forall s,
        let t := trace (exec (SentimentPage.handleAnalyze h) s) in
        hd_error t = Some EPreventDefault
        /\ (requests t <> [] -> exists r rest, t = (prelude ++ EFetch r :: rest)%list))
  /\ (forall s,
        let t := trace (exec (PortfolioPage.handleSubmit h) s) in
        hd_error t = Some EPreventDefault
        /\ (requests t <> [] -> exists r rest, t = (prelude ++ EFetch r :: rest)%list)).
Proof.
  split; [|split]; intros s t; subst t;
    symex; (split; [reflexivity|]); intros Hr;
    try (exfalso; apply Hr; reflexivity);
    eexists; eexists; reflexivity.
Qed.

(** ** Refusals and the probe *)

(** X15.  A non-2xx answer whose JSON object has no usable [detail]
    (the member is missing, null or the empty string) is reported with
    the page's own words: "Failed to get portfolio recommendation",
    "Failed to analyze sentiment", "Failed to analyze stock". *)
Theorem refusal_without_detail (h : Host) (r : Response) (ms : list (string * JSON)) :
  ok r = false ->
  json r = JsonResolves (JObject ms) ->
  noDetail ms = true ->
  (forall s,
     network h (PortfolioPage.recommendRequest h (PortfolioPage.formData s)) = Resolves r ->
     PortfolioPage.error (ui (exec (PortfolioPage.handleSubmit h) s))
     = "Failed to get portfolio recommendation")
  /\ (forall s,
        SentimentFacts.valid s = true ->
        probed h = true ->
        network h (SentimentPage.analyzeRequest h (SentimentPage.symbol s)
                     (SentimentPage.days s)) = Resolves r ->
        SentimentPage.error (ui (exec (SentimentPage.handleAnalyze h) s))
        = "Failed to analyze sentiment")
  /\ (forall s,
        StockFacts.valid h s = true ->
        probed h = true ->
        network h (StockAnalysisPage.analyzeRequest (StockFacts.cleanSymbol h s)
                     (StockAnalysisPage.period s)) = Resolves r ->
        StockAnalysisPage.error (ui (exec (StockAnalysisPage.handleAnalyze h) s))
        = "Failed to analyze stock").
Proof.
  intros Hok Hj Hd. unfold noDetail in Hd.
  split; [|split]; intros s.
  - intros Hn.
    destruct (Js.member "detail" ms) as [[| | |[|c d]| |]|] eqn:Em; try discriminate Hd;
      symex; reflexivity.
  - unfold SentimentFacts.valid, probed. intros Hv Hp Hn. apply negb_true_iff in Hv.
    destruct (network h healthRequest) eqn:Hh; [clear Hp|discriminate].
    destruct (Js.member "detail" ms) as [[| | |[|c d]| |]|] eqn:Em; try discriminate Hd;
      symex; reflexivity.
  - unfold probed, StockFacts.cleanSymbol. intros Hv Hp' Hn. stock_valid Hv.
    unfold StockFacts.cleanSymbol in *.
    destruct (network h healthRequest) eqn:Hh; [clear Hp'|discriminate].
    destruct (Js.member "detail" ms) as [[| | |[|c d]| |]|] eqn:Em; try discriminate Hd;
      symex; reflexivity.
Qed.

Lemma refusal_without_detail_witness :
  let r := {| status := 500; json := JsonResolves (JObject [("error", JString "boom")]) |} in
  let h := scriptedHost healthy (Resolves r) in
  (ok r = false /\ noDetail [("error", JString "boom")] = true)
  /\ PortfolioPage.error (ui (exec (PortfolioPage.handleSubmit h) (portfolioForm "30")))
     = "Failed to get portfolio recommendation".
Proof.
  split; [split; reflexivity|].
  exact (proj1 (refusal_without_detail
                  (scriptedHost healthy
                     (Resolves {| status := 500;
                                  json := JsonResolves (JObject [("error", JString "boom")]) |}))
                  {| status := 500;
                     json := JsonResolves (JObject [("error", JString "boom")]) |}
                  [("error", JString "boom")] eq_refl eq_refl eq_refl)
           (portfolioForm "30") eq_refl).
Defined.

(** X16.  When the body of the answer cannot be read as JSON
    ([response.json()] rejects), the page shows what it shows for that
    error (the parser's message, for an [Error]) and the result stays
    null, whatever the status: a 2xx answer with a broken body is a
    failure too. *)
Theorem unreadable_body_is_a_failure (h : Host) (r : Response) (e : Thrown) :
  json r = JsonRejects e ->
  (forall s,
     network h (PortfolioPage.recommendRequest h (PortfolioPage.formData s)) = Resolves r ->
     let w := exec (PortfolioPage.handleSubmit h) s in
     PortfolioPage.error (ui w) = PortfolioFacts.shown e
     /\ PortfolioPage.recommendation (ui w) = JNull)
  /\ (forall s,
        SentimentFacts.valid s = true ->
        probed h = true ->
        network h (SentimentPage.analyzeRequest h (SentimentPage.symbol s)
                     (SentimentPage.days s)) = Resolves r ->
        let w := exec (SentimentPage.handleAnalyze h) s in
        SentimentPage.error (ui w) = SentimentFacts.shown e
        /\ SentimentPage.analysis (ui w) = JNull)
  /\ (forall s,
        StockFacts.valid h s = true ->
        probed h = true ->
        network h (StockAnalysisPage.analyzeRequest (StockFacts.cleanSymbol h s)
                     (StockAnalysisPage.period s)) = Resolves r ->
        let w := exec (StockAnalysisPage.handleAnalyze h) s in
        StockAnalysisPage.error (ui w) = StockFacts.shown e
        /\ StockAnalysisPage.analysis (ui w) = JNull).
Proof.
  intros Hj. split; [|split]; intros s.
  - intros Hn w. subst w. unfold PortfolioFacts.shown. symex; split; reflexivity.
  - intros Hv Hp Hn w. subst w.
    unfold SentimentFacts.valid, SentimentFacts.shown, probed in *.
    apply negb_true_iff in Hv.
    destruct (network h healthRequest) eqn:Hh; [clear Hp|discriminate].
    symex; split; reflexivity.
  - intros Hv Hp' Hn w. subst w. unfold probed, StockFacts.shown in *.
    stock_valid Hv. unfold StockFacts.cleanSymbol in *.
    destruct (network h healthRequest) eqn:Hh; [clear Hp'|discriminate].
    symex; split; reflexivity.
Qed.

Lemma unreadable_body_is_a_failure_witness :
  let r := {| status := 200; json := JsonRejects (ErrorObject "Unexpected token <") |} in
  let h := scriptedHost healthy (Resolves r) in
  let w := exec (StockAnalysisPage.handleAnalyze h) (stockForm "AAPL" JNull) in
  (ok r = true /\ StockFacts.valid h (stockForm "AAPL" JNull) = true)
  /\ StockAnalysisPage.error (ui w) = "Unexpected token <"
  /\ StockAnalysisPage.analysis (ui w) = JNull.
Proof.
  split; [split; reflexivity|].
  exact (proj2 (proj2 (unreadable_body_is_a_failure
                         (scriptedHost healthy
                            (Resolves {| status := 200;
                                         json := JsonRejects (ErrorObject "Unexpected token <") |}))
                         {| status := 200;
                            json := JsonRejects (ErrorObject "Unexpected token <") |}
                         (ErrorObject "Unexpected token <") eq_refl))
           (stockForm "AAPL" JNull) eq_refl eq_refl eq_refl).
Defined.

(** X17.  The health probe only asks whether the backend answers at
    all: whatever the status of its response (a 500 as well), the
    handler goes on and issues its POST. *)
Theorem any_probe_answer_proceeds (h : Host) (r : Response) :
  network h healthRequest = Resolves r ->
  (forall s,
     StockFacts.valid h s = true ->
     requests (trace (exec (StockAnalysisPage.handleAnalyze h) s))
     = [healthRequest;
        StockAnalysisPage.analyzeRequest (StockFacts.cleanSymbol h s)
          (StockAnalysisPage.period s)])
  /\ (forall s,
        SentimentFacts.valid s = true ->
        requests (trace (exec (SentimentPage.handleAnalyze h) s))
        = [healthRequest;
           SentimentPage.analyzeRequest h (SentimentPage.symbol s)
             (SentimentPage.days s)]).
Proof.
  intros Hn. split; intros s Hv.
  - unfold StockFacts.cleanSymbol. stock_valid Hv. symex; reflexivity.
  - unfold SentimentFacts.valid in Hv. apply negb_true_iff in Hv. symex; reflexivity.
Qed.

Lemma any_probe_answer_proceeds_witness :
  let failing := {| status := 500; json := JsonRejects NotAnError |} in
  let h := scriptedHost (Resolves failing) (respond 200 appleAnalysis) in
  let w := exec (StockAnalysisPage.handleAnalyze h) (stockForm "AAPL" JNull) in
  (ok failing = false /\ network h healthRequest = Resolves failing)
  /\ requests (trace w) = [healthRequest; StockAnalysisPage.analyzeRequest "AAPL" "1y"].
Proof.
  split; [split; reflexivity|].
  exact (proj1 (any_probe_answer_proceeds
                  (scriptedHost (Resolves {| status := 500; json := JsonRejects NotAnError |})
                     (respond 200 appleAnalysis))
                  {| status := 500; json := JsonRejects NotAnError |} eq_refl)
           (stockForm "AAPL" JNull) eq_refl).
Defined.
